(** * Windowed consensus and stitching (consensus.py)

    A shallow embedding of [src/consensus.py]: the per-window fragment
    selection ([fill_window], [fill_and_run_spoa]), the window production
    stage ([run_spoa_in_cc]), the extraction of a consensus from an engine
    output file ([get_consensus]) and the sequential stitching
    ([add_next_window], [merge_windows_in_cc]).

    Conventions.
    - Python integers are [Z]; Python 2 byte strings are [list ascii].
    - Python slicing [s[i:j]] is [slice], with the clamping and the
      negative-index rule written out.
    - Exceptions are the [Raise] branch of [result].
    - The file system is a finite map from paths to contents, threaded
      explicitly through every function that reads or writes files.  An
      exception ends the run: the files it leaves behind are not kept.
    - The alignment engine (spoa), Biopython's record formatter and its
      reverse complement are outside the repository: they are parameters
      of the section that holds the embedding. *)

From Stdlib Require Import ZArith Ascii String.
From stdpp Require Import gmap list pretty.

Local Open Scope Z_scope.

(** ** Python values *)

Definition lit (s : string) : list ascii := list_ascii_of_string s.

Definition newline : ascii := "010"%char.

Definition is_newline (c : ascii) : bool := Ascii.eqb c newline.

(** [len(s)] as a Python integer. *)
Definition len {A} (s : list A) : Z := Z.of_nat (length s).

(** Normalisation of one slice bound against a sequence of length [n]:
    a negative bound counts from the end, and every bound is clamped
    to [0 .. n]. *)
Definition slice_bound (n i : Z) : Z :=
  if i <? 0 then Z.max 0 (i + n) else Z.min i n.

(** [s[lo:hi]] *)
Definition slice {A} (s : list A) (lo hi : Z) : list A :=
  let a := slice_bound (len s) lo in
  let b := slice_bound (len s) hi in
  take (Z.to_nat (b - a)) (drop (Z.to_nat a) s).

(** [s[:hi]] and [s[lo:]] *)
Definition slice_to {A} (s : list A) (hi : Z) : list A := slice s 0 hi.
Definition slice_from {A} (s : list A) (lo : Z) : list A := slice s lo (len s).

(** [xrange(a, b)] *)
Definition xrange (a b : Z) : list Z :=
  (fun i : nat => a + Z.of_nat i) <$> seq 0 (Z.to_nat (b - a)).

(** ["%d" % z] *)
Definition fmt_d (z : Z) : list ascii := lit (pretty z).

(** [fh.readlines()] on the whole content of a file opened in binary
    mode: the content cut after every newline, terminators kept. *)
Fixpoint readlines (s : list ascii) : list (list ascii) :=
  match s with
  | [] => []
  | c :: s' =>
      if is_newline c then [c] :: readlines s'
      else match readlines s' with
           | [] => [[c]]
           | l :: ls => (c :: l) :: ls
           end
  end.

(** [lines[-1]] for a list known to be non-empty by the caller; the
    default is never reached from [get_consensus]. *)
Definition last_line (lines : list (list ascii)) : list ascii :=
  List.last lines [].

(** ** Exceptions *)

Inductive exn : Type :=
| IOError      (* open() of a file that does not exist *)
| ValueError   (* numpy reduction of an empty array *)
| IndexError   (* list index out of range *)
| OSError.     (* os.remove() of a file that does not exist *)

Inductive result (A : Type) : Type :=
| Ok (a : A)
| Raise (e : exn).
Arguments Ok {A} a.
Arguments Raise {A} e.

(** Sequencing: an exception raised by the first computation is the
    outcome of the whole; written [x ← r; k] below. *)
Global Instance result_bind : MBind result := fun A B k r =>
  match r with
  | Ok a => k a
  | Raise e => Raise e
  end.

Definition is_ok {A} (r : result A) : bool :=
  match r with Ok _ => true | Raise _ => false end.

(** ** Options and file names *)

Inductive reads_fmt : Type := fasta | fastq.

(** [opts]: the entries of the global dictionary that the modelled
    functions read.  [ROOT_DIR] and [SPOA_PATH] are absorbed in [path]
    and in the engine parameters, [VERB] only drives logging. *)
Record opts : Type := {
  W_LEN : Z;
  W_OVL_LEN : Z;
  READS_FMT : reads_fmt;
  N_PROC : Z;
  TRIM_MARGIN : Z;
  MERGE_MARGIN : Z
}.

(** The file names the module builds with ["%s/cc_%d/..." % (...)], kept
    as the tuple of values that are formatted into them; [ROOT_DIR] is
    fixed for a run.
    - [poa_in_fn cc w fmt]   : ROOT/cc_<cc>/poa_in_cc_<cc>_win_<w>.<fmt>
    - [cnsns_fn cc w fmt]    : the same followed by ".cnsns"; with
      [fmt] in fasta, fastq this is also the name
      ROOT/cc_<cc>/poa_in_cc_<cc>_win_<w>.fast<fmt[-1]>.cnsns
      that the stitching phase reads
    - [poa_in_cons_fn cc w]  : ROOT/poa_in_cons_cc_<cc>_win_<w>.fasta
    - [poa_out_cons_fn cc w] : ROOT/cc_<cc>/poa_out_cons_cc<cc>_win_<w>
    - [consensus_fn cc]      : ROOT/consensus_cc_<cc>.fasta *)
Inductive path : Type :=
| poa_in_fn (cc_idx w_idx : Z) (fmt : reads_fmt)
| cnsns_fn (cc_idx w_idx : Z) (fmt : reads_fmt)
| poa_in_cons_fn (cc_idx w_idx : Z)
| poa_out_cons_fn (cc_idx w_idx : Z)
| consensus_fn (cc_idx : Z).

Global Instance reads_fmt_eq_dec : EqDecision reads_fmt.
Proof. solve_decision. Defined.

Global Instance path_eq_dec : EqDecision path.
Proof. solve_decision. Defined.

Definition path_code (p : path) : nat * (Z * Z * bool) :=
  match p with
  | poa_in_fn c w f => (0%nat, (c, w, bool_decide (f = fastq)))
  | cnsns_fn c w f => (1%nat, (c, w, bool_decide (f = fastq)))
  | poa_in_cons_fn c w => (2%nat, (c, w, false))
  | poa_out_cons_fn c w => (3%nat, (c, w, false))
  | consensus_fn c => (4%nat, (c, 0, false))
  end.

Definition path_decode (t : nat * (Z * Z * bool)) : path :=
  let '(k, (c, w, b)) := t in
  let f := if b then fastq else fasta in
  match k with
  | 0%nat => poa_in_fn c w f
  | 1%nat => cnsns_fn c w f
  | 2%nat => poa_in_cons_fn c w
  | 3%nat => poa_out_cons_fn c w
  | _ => consensus_fn c
  end.

Global Instance path_countable : Countable path.
Proof.
  apply (inj_countable' path_code path_decode).
  intros [c w []|c w []|c w|c w|c]; reflexivity.
Defined.

(** The file system: existing paths and their contents. *)
Abbreviation FS := (gmap path (list ascii)).

(** [not(os.path.exists(fn)) or os.path.getsize(fn)==0] *)
Definition missing_or_empty (fs : FS) (fn : path) : bool :=
  match fs !! fn with
  | None => true
  | Some c => bool_decide (c = [])
  end.

(** [os.remove(fn)] *)
Definition os_remove (fs : FS) (fn : path) : result FS :=
  match fs !! fn with
  | None => Raise OSError
  | Some _ => Ok (delete fn fs)
  end.

(** ** Sequences, arrays and loops *)

(** [l[i]] on a Python list or a numpy array: a negative index counts
    from the end, an index out of range raises. *)
Definition py_get {A} (l : list A) (i : Z) : result A :=
  let j := if i <? 0 then i + len l else i in
  if j <? 0 then Raise IndexError
  else match l !! Z.to_nat j with
       | Some x => Ok x
       | None => Raise IndexError
       end.

(** [l[i] = x] *)
Definition py_set {A} (l : list A) (i : Z) (x : A) : result (list A) :=
  let j := if i <? 0 then i + len l else i in
  if (j <? 0) || (len l <=? j) then Raise IndexError
  else Ok (<[Z.to_nat j := x]> l).

(** [a.max()] and [a.min()] of a numpy array: an empty array has no
    maximum and the reduction raises. *)
Definition np_max (a : list Z) : result Z :=
  match a with
  | [] => Raise ValueError
  | x :: a' => Ok (foldr Z.max x a')
  end.

Definition np_min (a : list Z) : result Z :=
  match a with
  | [] => Raise ValueError
  | x :: a' => Ok (foldr Z.min x a')
  end.

(** [np.flatnonzero(mask)]: the indices of the true entries. *)
Fixpoint flatnonzero_from (i : Z) (mask : list bool) : list Z :=
  match mask with
  | [] => []
  | b :: mask' =>
      if b then i :: flatnonzero_from (i + 1) mask'
      else flatnonzero_from (i + 1) mask'
  end.

Definition flatnonzero (mask : list bool) : list Z := flatnonzero_from 0 mask.

(** [for x in xs: s = body(x, s)], stopping at the first exception. *)
Fixpoint for_each {X S} (xs : list X) (body : X -> S -> result S) (s : S)
  : result S :=
  match xs with
  | [] => Ok s
  | x :: xs' => s' ← body x s; for_each xs' body s'
  end.

(** [enumerate(l)] *)
Definition enumerate {A} (l : list A) : list (Z * A) :=
  zip (xrange 0 (len l)) l.

(** ** Reads *)

(** A SeqRecord, reduced to what this module touches: the identifier and
    the sequence. *)
Record record : Type := {
  rec_id : list ascii;
  rec_seq : list ascii
}.

(** [record[bb:ee]]: the slice of the sequence under the same
    identifier. *)
Definition rec_slice (r : record) (bb ee : Z) : record :=
  {| rec_id := rec_id r; rec_seq := slice (rec_seq r) bb ee |}.

(** ** What lies outside the repository *)

Class External : Type := {
  (** [record.format(READS_FMT)] of Biopython *)
  record_format : reads_fmt -> record -> list ascii;
  (** [record.reverse_complement()] of Biopython *)
  reverse_complement : record -> record;
  (** what the spoa call of [run_spoa] leaves in its output file, from
      the format flag and the content of the input file *)
  spoa_msa : reads_fmt -> list ascii -> list ascii;
  (** what the shell command of [run_spoa_and_consensus] leaves in
      [out_fn], from the content of [in_fn], under a shell that accepts
      the redirection [>&] and so creates [out_fn]; a shell that
      refuses it writes nothing, and that run is not described here *)
  spoa_pair : list ascii -> list ascii
}.

(** ** Consensus in windows *)

Section Windows.
Context {E : External}.

(** [run_spoa], at the names of its one call site: [filename] is the
    window input [poa_in_fn cc_idx w_idx reads_fmt] and the output
    ["%s.cnsns" % filename] is [cnsns_fn cc_idx w_idx reads_fmt]. *)
Definition run_spoa (fs : FS) (cc_idx w_idx : Z) (fmt : reads_fmt) : FS :=
  let filename := poa_in_fn cc_idx w_idx fmt in
  match fs !! filename with
  | None => fs
  | Some content =>
      if bool_decide (content = []) then fs
      else <[cnsns_fn cc_idx w_idx fmt := spoa_msa fmt content]> fs
  end.

(** The body of the loop shared by [fill_window] and
    [fill_and_run_spoa]: the piece of read [idx] that is written for
    the window [w_b, w_e), or nothing when it is shorter than 20. *)
Definition window_piece (record_list : list record) (cc : list Z)
    (bpos_list : list Z) (w_b w_e : Z) (idx : Z) : result (option record) :=
  read_idx ← py_get cc idx;
  record ← py_get record_list read_idx;
  let read_len := len (rec_seq record) in
  b ← py_get bpos_list idx;
  let bb := Z.max 0 (w_b - b) in
  let ee := Z.min read_len (w_e - b) in
  if ee - bb <? 20 then Ok None
  else Ok (Some (rec_slice record bb ee)).

(** One turn of the loop: the piece, if any, goes to the end of what
    has been written. *)
Definition window_step (record_list : list record) (cc : list Z)
    (bpos_list : list Z) (w_b w_e : Z) (idx : Z) (acc : list record)
  : result (list record) :=
  p ← window_piece record_list cc bpos_list w_b w_e idx;
  Ok (match p with Some r => acc ++ [r] | None => acc end).

(** [reads_in_w].  The two arrays hold one entry per read of the
    component; numpy's broadcasting of arrays of different lengths is
    not modelled. *)
Definition reads_in_w (bpos_list epos_list : list Z) (w_b w_e : Z) : list Z :=
  flatnonzero (zip_with andb ((fun b => b <? w_e) <$> bpos_list)
                             ((fun e => e >? w_b) <$> epos_list)).

(** The records written for window [w_idx], in the order of the loop. *)
Definition window_fragments (w_idx : Z) (record_list : list record)
    (cc : list Z) (bpos_list epos_list : list Z) (o : opts)
  : result (list record) :=
  let w_b := (W_LEN o - W_OVL_LEN o) * w_idx in
  let w_e := w_b + W_LEN o in
  for_each (reads_in_w bpos_list epos_list w_b w_e)
    (window_step record_list cc bpos_list w_b w_e) [].

(** The content of the window input file: the formatted pieces, one
    after the other. *)
Definition poa_in_content (fmt : reads_fmt) (frags : list record) : list ascii :=
  mjoin (record_format fmt <$> frags).

Definition fill_window (fs : FS) (w_idx : Z) (record_list : list record)
    (cc_idx : Z) (cc : list Z) (bpos_list epos_list : list Z) (o : opts)
  : result FS :=
  frags ← window_fragments w_idx record_list cc bpos_list epos_list o;
  Ok (<[poa_in_fn cc_idx w_idx (READS_FMT o) :=
         poa_in_content (READS_FMT o) frags]> fs).

Definition fill_and_run_spoa (fs : FS) (w_idx : Z) (record_list : list record)
    (cc_idx : Z) (cc : list Z) (bpos_list epos_list : list Z) (o : opts)
  : result FS :=
  frags ← window_fragments w_idx record_list cc bpos_list epos_list o;
  let fs := <[poa_in_fn cc_idx w_idx (READS_FMT o) :=
               poa_in_content (READS_FMT o) frags]> fs in
  Ok (run_spoa fs cc_idx w_idx (READS_FMT o)).

(** The window count of [run_spoa_in_cc].  [//] rounds down, as [`div`]
    does; on a zero divisor numpy's integer division answers 0 with a
    warning, and so does [`div`].  The coordinates are numpy integers:
    [Z] agrees with them as long as no value leaves their range (see
    [in_range]). *)
Definition n_windows (bpos_list epos_list : list Z) (o : opts) : result Z :=
  emax ← np_max epos_list;
  bmin ← np_min bpos_list;
  let cons_len := emax - bmin in
  let n_windows := cons_len `div` (W_LEN o - W_OVL_LEN o) in
  Ok (n_windows + 1).

(** The loop that replaces the reads of the opposite strand by their
    reverse complement, under the same identifier. *)
Definition reverse_reads (record_list : list record) (cc : list Z)
    (strand_list : list bool) : result (list record) :=
  for_each (enumerate cc)
    (fun '(idx, read_idx) record_list =>
       strand ← py_get strand_list idx;
       if negb strand then
         r ← py_get record_list read_idx;
         let read_id := rec_id r in
         let rc := reverse_complement r in
         py_set record_list read_idx
           {| rec_id := read_id; rec_seq := rec_seq rc |}
       else Ok record_list)
    record_list.

(** [run_spoa_in_cc].  [make_dir(cc_dir)] creates the directory of the
    component; [FS] holds files only, so the call leaves no trace in
    it.  [Pool.map] returns when every task has
    returned; the tasks write files of different names and each works
    on its own copy of the arguments, so the pool is the loop over
    [range(n_windows)].  The result is the file system and the
    (mutated) [record_list]. *)
Definition run_spoa_in_cc (fs : FS) (record_list : list record) (cc_idx : Z)
    (cc : list Z) (strand_list : list bool) (bpos_list epos_list : list Z)
    (o : opts) : result (FS * list record) :=
  n ← n_windows bpos_list epos_list o;
  b_min ← np_min bpos_list;
  let bpos_list := (fun b => b - b_min) <$> bpos_list in
  let epos_list := (fun e => e - b_min) <$> epos_list in
  record_list ← reverse_reads record_list cc strand_list;
  if 1 <? N_PROC o then
    fs ← for_each (xrange 0 n)
           (fun w_idx fs =>
              fill_and_run_spoa fs w_idx record_list cc_idx cc
                bpos_list epos_list o)
           fs;
    Ok (fs, record_list)
  else Ok (fs, record_list).

End Windows.

(** ** Merging the windows *)

(** What [get_consensus] returns from the content of the file it has
    opened. *)
Definition consensus_of (content : list ascii) (trim_margin : Z) : list ascii :=
  let lines := readlines content in
  if bool_decide (len lines = 0) then []
  else
    let consensus := slice_to (last_line lines) (-1) in
    slice consensus trim_margin (len consensus - trim_margin).

(** [get_consensus]: [open] raises when the file does not exist. *)
Definition get_consensus (fs : FS) (out_fn : path) (trim_margin : Z)
  : result (list ascii) :=
  match fs !! out_fn with
  | None => Raise IOError
  | Some content => Ok (consensus_of content trim_margin)
  end.

(** [kept_len] of [add_next_window] *)
Definition kept_len (whole_cons next_win_seq : list ascii) (o : opts) : Z :=
  Z.max 0 (len whole_cons - len next_win_seq - MERGE_MARGIN o).

(** The two records written to [temp_fn] by [add_next_window]. *)
Definition seam_input (w_idx : Z) (cons1 next_win_seq : list ascii) : list ascii :=
  lit ">end_of_current_cons" ++ [newline] ++ cons1 ++ [newline]
  ++ lit ">cons_in_window_" ++ fmt_d w_idx ++ [newline]
  ++ next_win_seq ++ [newline].

(** The record written to the backup file by [merge_windows_in_cc]. *)
Definition consensus_record (cc_idx : Z) (whole_cons : list ascii) : list ascii :=
  lit ">consensus_from_windows_contig_" ++ fmt_d cc_idx ++ [newline]
  ++ whole_cons ++ [newline].

(** The files matched by [poa_in_cc_<cc>_win_*.fast*.cnsns] in the
    directory of the component. *)
Definition is_cnsns_of (cc_idx : Z) (p : path) : bool :=
  match p with
  | cnsns_fn c _ _ => bool_decide (c = cc_idx)
  | _ => false
  end.

(** [int(subprocess.check_output("ls ... | wc -l"))]: the number of
    matching files. *)
Definition ls_wc (fs : FS) (cc_idx : Z) : result Z :=
  Ok (Z.of_nat (size (filter (fun p => is_cnsns_of cc_idx p = true) (dom fs)))).

(** [n_win] of [merge_windows_in_cc], with its fallback. *)
Definition n_win (fs : FS) (cc_idx : Z) : Z :=
  match ls_wc fs cc_idx with
  | Ok n => n
  | Raise _ => 10000
  end.

Section Merge.
Context {E : External}.

(** [run_spoa_and_consensus].  The command is run by a shell that
    accepts [>&]: when it returns, [out_fn] holds [spoa_pair] of the
    input.  Under a shell that refuses the redirection no file is
    written and [get_consensus] raises on the missing [out_fn]: such a
    run is outside this definition. *)
Definition run_spoa_and_consensus (fs : FS) (in_fn out_fn : path)
  : result (FS * list ascii) :=
  match fs !! in_fn with
  | None => Ok (fs, [])
  | Some content =>
      if bool_decide (content = []) then Ok (fs, [])
      else
        let fs := <[out_fn := spoa_pair content]> fs in
        consensus ← get_consensus fs out_fn 0;
        fs ← os_remove fs in_fn;
        fs ← os_remove fs out_fn;
        Ok (fs, consensus)
  end.

(** [add_next_window] *)
Definition add_next_window (fs : FS) (temp_fn : path) (w_idx cc_idx : Z)
    (whole_cons : list ascii) (o : opts) (trim_margin : Z)
  : result (FS * list ascii) :=
  let fn := cnsns_fn cc_idx w_idx (READS_FMT o) in
  if missing_or_empty fs fn then Ok (fs, whole_cons)
  else
    next_win_seq ← get_consensus fs fn trim_margin;
    let kept_len := kept_len whole_cons next_win_seq o in
    let cons0 := slice_to whole_cons kept_len in
    let cons1 := slice_from whole_cons kept_len in
    let fs := <[temp_fn := seam_input w_idx cons1 next_win_seq]> fs in
    let out_fn := poa_out_cons_fn cc_idx w_idx in
    '(fs, cons1b) ← run_spoa_and_consensus fs temp_fn out_fn;
    Ok (fs, cons0 ++ cons1b).

(** One iteration of the loops of [merge_windows_in_cc]. *)
Definition merge_step (cc_idx : Z) (o : opts) (trim_margin : Z) (w_idx : Z)
    (st : FS * list ascii) : result (FS * list ascii) :=
  let temp_fn := poa_in_cons_fn cc_idx w_idx in
  add_next_window st.1 temp_fn w_idx cc_idx st.2 o trim_margin.

(** [merge_windows_in_cc], from the window count on. *)
Definition merge_windows_from (n_win : Z) (fs : FS) (cc_idx : Z) (o : opts)
  : result (FS * list ascii) :=
  let fn := cnsns_fn cc_idx 0 (READS_FMT o) in
  whole_cons ← get_consensus fs fn (TRIM_MARGIN o);
  st ← for_each (xrange 0 3) (merge_step cc_idx o 0) (fs, whole_cons);
  st ← for_each (xrange 3 (n_win - 3)) (merge_step cc_idx o (TRIM_MARGIN o)) st;
  st ← for_each (xrange (n_win - 3) n_win) (merge_step cc_idx o 0) st;
  let whole_cons := st.2 in
  Ok (<[consensus_fn cc_idx := consensus_record cc_idx whole_cons]> st.1,
      whole_cons).

(** [merge_windows_in_cc] *)
Definition merge_windows_in_cc (fs : FS) (cc_idx : Z) (o : opts)
  : result (FS * list ascii) :=
  merge_windows_from (n_win fs cc_idx) fs cc_idx o.

End Merge.

(** ** The transitions of the stitching phase, as data *)

(** The window index and the trim margin of every call of
    [add_next_window], in the order of the three loops. *)
Definition schedule (n_win : Z) (o : opts) : list (Z * Z) :=
  ((fun w => (w, 0)) <$> xrange 0 3)
  ++ ((fun w => (w, TRIM_MARGIN o)) <$> xrange 3 (n_win - 3))
  ++ ((fun w => (w, 0)) <$> xrange (n_win - 3) n_win).

(** The margin the specification assigns to window [w] of [n]. *)
Definition trimMargin (n : Z) (o : opts) (w : Z) : Z :=
  if (w <? 3) || (n - 3 <=? w) then 0 else TRIM_MARGIN o.

(** ** A stand-in for the external parts, to run the model

    The formatter writes a FASTA record, the reverse complement reverses
    and swaps A/T and C/G, and both engine calls return their input
    unchanged, so that the consensus read back by [get_consensus] is the
    last sequence submitted. *)

Definition complement (c : ascii) : ascii :=
  if Ascii.eqb c "A" then "T"%char
  else if Ascii.eqb c "T" then "A"%char
  else if Ascii.eqb c "C" then "G"%char
  else if Ascii.eqb c "G" then "C"%char
  else c.

Definition echo : External := {|
  record_format := fun _ r => lit ">" ++ rec_id r ++ [newline] ++ rec_seq r ++ [newline];
  reverse_complement := fun r =>
    {| rec_id := rec_id r; rec_seq := complement <$> reverse (rec_seq r) |};
  spoa_msa := fun _ content => content;
  spoa_pair := fun content => content
|}.

(** An engine whose stitching call fails and leaves an empty output. *)
Definition silent : External := {|
  record_format := @record_format echo;
  reverse_complement := @reverse_complement echo;
  spoa_msa := fun _ _ => [];
  spoa_pair := fun _ => []
|}.

(** An engine whose stitching call answers the first of the two
    sequences it is given: the second line of its input. *)
Definition keep_tail : External := {|
  record_format := @record_format echo;
  reverse_complement := @reverse_complement echo;
  spoa_msa := fun _ content => content;
  spoa_pair := fun content => default [] (readlines content !! 1%nat)
|}.

(** ** The stitcher in the words of the specification

    The running consensus starts as the consensus of window 0 trimmed
    with margin 0, and the transition is applied to the windows
    [1 .. n-1], each with its [trimMargin]. *)
Definition stitch_as_specified {E : External} (n : Z) (fs : FS) (cc_idx : Z)
    (o : opts) : result (FS * list ascii) :=
  whole_cons ← get_consensus fs (cnsns_fn cc_idx 0 (READS_FMT o)) 0;
  st ← for_each (xrange 1 n)
         (fun w => merge_step cc_idx o (trimMargin n o w) w) (fs, whole_cons);
  Ok (<[consensus_fn cc_idx := consensus_record cc_idx st.2]> st.1, st.2).

(** ** The fragments of a window in the words of the specification

    A read with coordinates [b, e) is selected for the window
    [w_b, w_e) when [b < w_e] and [e > w_b]; it is clipped to
    [max(0, w_b - b), min(readLength, w_e - b)] and dropped when the
    clipped length is below 20. *)
Definition spec_fragment (w_b w_e : Z) (r : record) (b e : Z) : option record :=
  if (b <? w_e) && (e >? w_b) then
    let bb := Z.max 0 (w_b - b) in
    let ee := Z.min (len (rec_seq r)) (w_e - b) in
    if ee - bb <? 20 then None else Some (rec_slice r bb ee)
  else None.

(** The reads of the component are the entries of [cc] with their
    coordinates, in order. *)
Definition spec_pick (w_b w_e : Z) (record_list : list record)
    (t : Z * (Z * Z)) : option record :=
  let '(read_idx, (b, e)) := t in
  r ← record_list !! Z.to_nat read_idx;
  spec_fragment w_b w_e r b e.

Definition spec_fragments (w_b w_e : Z) (record_list : list record)
    (cc : list Z) (bpos_list epos_list : list Z) : list record :=
  omap (spec_pick w_b w_e record_list) (zip cc (zip bpos_list epos_list)).

(** ** Sample data *)

Definition sample_opts (n_proc trim_margin merge_margin : Z) : opts :=
  {| W_LEN := 100; W_OVL_LEN := 0; READS_FMT := fasta; N_PROC := n_proc;
     TRIM_MARGIN := trim_margin; MERGE_MARGIN := merge_margin |}.

(** An engine output file: a line of log, then the consensus. *)
Definition cnsns_content (consensus : list ascii) : list ascii :=
  lit "spoa" ++ [newline] ++ consensus ++ [newline].

(** The output files of six windows of component 0: a consensus of
    twenty bases for window 0, of one base for the others. *)
Definition six_windows : FS :=
  list_to_map
    ((cnsns_fn 0 0 fasta, cnsns_content (lit "ACGTACGTACGTACGTACGT"))
     :: ((fun w => (cnsns_fn 0 w fasta, cnsns_content (lit "A"))) <$> xrange 1 6)).

(** A read of [n] bases. *)
Definition read_of_length (n : nat) : record :=
  {| rec_id := lit "read"; rec_seq := replicate n "A"%char |}.

(** Three reads on [0,100), [50,150) and [120,200), for windows of
    length 100 that overlap by 20. *)
Definition scenario_opts : opts :=
  {| W_LEN := 100; W_OVL_LEN := 20; READS_FMT := fasta; N_PROC := 2;
     TRIM_MARGIN := 0; MERGE_MARGIN := 10 |}.
Definition scenario_reads : list record :=
  [read_of_length 100; read_of_length 100; read_of_length 80].
Definition scenario_cc : list Z := [0; 1; 2].
Definition scenario_bpos : list Z := [0; 50; 120].
Definition scenario_epos : list Z := [100; 150; 200].

(** Two reads on [0,100) and [50,210), for windows of length 100 that
    do not overlap: the third window, [200,300), only holds ten bases
    of the second read. *)
Definition short_end_reads : list record :=
  [read_of_length 100; read_of_length 160].
Definition short_end_cc : list Z := [0; 1].
Definition short_end_strands : list bool := [true; true].
Definition short_end_bpos : list Z := [0; 50].
Definition short_end_epos : list Z := [100; 210].

(** The consensus string returned by a run. *)
Definition returned (r : result (FS * list ascii)) : result (list ascii) :=
  st ← r; Ok st.2.

(** ** Names for the further properties *)

(** The text before the last line: nothing, or lines that end. *)
Definition ends_lines (pre : list ascii) : Prop :=
  pre = [] \/ exists p, pre = p ++ [newline].

(** The files [merge_windows_in_cc] writes or removes for a component:
    the two temporary files of a transition and the backup of the
    consensus. *)
Definition merge_scratch (cc_idx : Z) (p : path) : bool :=
  match p with
  | poa_in_cons_fn c _ | poa_out_cons_fn c _ | consensus_fn c =>
      bool_decide (c = cc_idx)
  | _ => false
  end.

(** Integers on which the arithmetic of numpy arrays is exact, for
    64-bit integers as for double precision floats, sums and
    differences of two of them included. *)
Definition in_range (x : Z) : Prop := - 2 ^ 52 < x < 2 ^ 52.

(** One read on [0,910), for windows of length 100 that do not
    overlap: the tenth window, [900,1000), only holds ten bases. *)
Definition long_read_reads : list record := [read_of_length 910].
Definition long_read_cc : list Z := [0].
Definition long_read_strands : list bool := [true].
Definition long_read_bpos : list Z := [0].
Definition long_read_epos : list Z := [910].

(** Two reads on [0,300) and [500,790), for windows of length 100 that
    do not overlap: no read meets the windows 3 and 4. *)
Definition gap_reads : list record := [read_of_length 300; read_of_length 290].
Definition gap_cc : list Z := [0; 1].
Definition gap_strands : list bool := [true; true].
Definition gap_bpos : list Z := [0; 500].
Definition gap_epos : list Z := [300; 790].

(** The output files of the windows 0, 1, 2 and 4 of component 0. *)
Definition gap_windows : FS :=
  list_to_map
    ((fun w => (cnsns_fn 0 w fasta, cnsns_content (lit "ACGT"))) <$> [0; 1; 2; 4]).

(** * Properties *)

Lemma bind_Ok {A B} (a : A) (k : A -> result B) : (Ok a ≫= k) = k a.
Proof. reflexivity. Qed.

(** ** Slices *)

Lemma len_nonneg {A} (s : list A) : 0 <= len s.
Proof. unfold len. lia. Qed.

Lemma len_app {A} (s t : list A) : len (s ++ t) = len s + len t.
Proof. unfold len. rewrite length_app. lia. Qed.

Lemma slice_bound_nonneg n i : 0 <= i -> slice_bound n i = Z.min i n.
Proof. intros Hi. unfold slice_bound. destruct (Z.ltb_spec i 0); [lia|done]. Qed.

Lemma slice_bound_neg n i : i < 0 -> slice_bound n i = Z.max 0 (i + n).
Proof. intros Hi. unfold slice_bound. destruct (Z.ltb_spec i 0); [done|lia]. Qed.

Lemma slice_to_take {A} (s : list A) k :
  0 <= k -> slice_to s k = take (Z.to_nat k) s.
Proof.
  intros Hk. unfold slice_to, slice.
  rewrite !slice_bound_nonneg by lia.
  pose proof (len_nonneg s) as HL.
  replace (Z.to_nat (Z.min 0 (len s))) with 0%nat by lia.
  rewrite drop_0.
  destruct (Z.le_gt_cases k (len s)).
  - f_equal. lia.
  - rewrite !take_ge; [done| |]; unfold len in *; lia.
Qed.

Lemma slice_from_drop {A} (s : list A) k :
  0 <= k -> slice_from s k = drop (Z.to_nat k) s.
Proof.
  intros Hk. unfold slice_from, slice.
  pose proof (len_nonneg s) as HL.
  rewrite !slice_bound_nonneg by lia.
  destruct (Z.le_gt_cases k (len s)).
  - rewrite (Z.min_l k) by lia. apply take_ge.
    rewrite length_drop. unfold len in *. lia.
  - rewrite !drop_ge; [apply take_nil| |]; unfold len in *; lia.
Qed.

Lemma slice_to_minus_1 {A} (s : list A) : slice_to s (-1) = removelast s.
Proof.
  unfold slice_to, slice.
  pose proof (len_nonneg s) as HL.
  rewrite (slice_bound_nonneg _ 0), (slice_bound_neg _ (-1)) by lia.
  replace (Z.to_nat (Z.min 0 (len s))) with 0%nat by lia.
  rewrite drop_0, removelast_firstn_len. unfold take. f_equal. unfold len. lia.
Qed.

(** [s[t : len(s) - t]] for a margin that is not negative. *)
Lemma slice_trim {A} (s : list A) t :
  0 <= t ->
  slice s t (len s - t) = take (Z.to_nat (len s - 2 * t)) (drop (Z.to_nat t) s).
Proof.
  intros Ht. unfold slice.
  pose proof (len_nonneg s) as HL.
  rewrite (slice_bound_nonneg _ t) by lia.
  destruct (Z.lt_ge_cases (len s - t) 0).
  - (* the margin exceeds the length: the slice is empty *)
    rewrite slice_bound_neg by lia.
    replace (Z.to_nat (Z.max 0 (len s - t + len s) - Z.min t (len s))) with 0%nat by lia.
    replace (Z.to_nat (len s - 2 * t)) with 0%nat by lia.
    reflexivity.
  - rewrite slice_bound_nonneg by lia.
    rewrite (Z.min_l (len s - t)) by lia. rewrite (Z.min_l t) by lia.
    f_equal. lia.
Qed.

Lemma slice_split {A} (s : list A) k :
  0 <= k -> slice_to s k ++ slice_from s k = s.
Proof.
  intros Hk. rewrite slice_to_take, slice_from_drop by done.
  apply take_drop.
Qed.

(** ** Lines *)

Lemma readlines_nil_iff s : readlines s = [] <-> s = [].
Proof.
  split; [|intros ->; reflexivity].
  destruct s as [|c s]; [done|]. simpl.
  destruct (is_newline c); [done|].
  destruct (readlines s); done.
Qed.

Lemma len_zero_iff {A} (s : list A) : len s = 0 <-> s = [].
Proof.
  unfold len. destruct s; simpl; split; intros; try done; lia.
Qed.

(** ** Extraction of a consensus *)

Lemma consensus_of_no_lines content t :
  readlines content = [] -> consensus_of content t = [].
Proof. intros Hl. unfold consensus_of. rewrite Hl. reflexivity. Qed.

Lemma consensus_of_last_line content t :
  readlines content <> [] -> 0 <= t ->
  let line := removelast (last_line (readlines content)) in
  consensus_of content t = take (Z.to_nat (len line - 2 * t)) (drop (Z.to_nat t) line).
Proof.
  intros Hl Ht line. unfold consensus_of.
  rewrite bool_decide_eq_false_2 by (rewrite len_zero_iff; exact Hl).
  rewrite slice_to_minus_1. fold line. apply slice_trim, Ht.
Qed.

(** C10. On a file that exists, and with a margin [t >= 0],
    [get_consensus] returns a value: the empty string when the file has
    no lines; otherwise, with [line] the last line without its final
    character, the empty string when [len line <= 2 * t], and [line]
    with exactly [t] characters removed from each end when it is
    longer. *)
Theorem get_consensus_total (fs : FS) (out_fn : path) (content : list ascii) (t : Z) :
  fs !! out_fn = Some content -> 0 <= t ->
  exists r, get_consensus fs out_fn t = Ok r /\
    (readlines content = [] -> r = []) /\
    (readlines content <> [] ->
       let line := removelast (last_line (readlines content)) in
       (len line <= 2 * t -> r = []) /\
       (2 * t < len line ->
          exists pre post, line = pre ++ r ++ post /\ len pre = t /\ len post = t)).
Proof.
  intros Hfile Ht. exists (consensus_of content t).
  unfold get_consensus. rewrite Hfile. split; [reflexivity|].
  split; [apply consensus_of_no_lines|].
  intros Hl. rewrite (consensus_of_last_line content t Hl Ht).
  set (line := removelast (last_line (readlines content))).
  pose proof (len_nonneg line) as HL. split.
  - intros Hshort. replace (Z.to_nat (len line - 2 * t)) with 0%nat by lia.
    reflexivity.
  - intros Hlong.
    exists (take (Z.to_nat t) line),
           (drop (Z.to_nat (len line - 2 * t)) (drop (Z.to_nat t) line)).
    rewrite take_drop, take_drop. split; [reflexivity|].
    unfold len in *. rewrite length_take, !length_drop. lia.
Qed.

Lemma get_consensus_total_witness :
  let fn := cnsns_fn 0 0 fasta in
  let content := lit "ACGTAC" ++ [newline] in
  let fs : FS := {[ fn := content ]} in
  fs !! fn = Some content /\ 0 <= 1 /\
  exists r, get_consensus fs fn 1 = Ok r /\
    (readlines content = [] -> r = []) /\
    (readlines content <> [] ->
       let line := removelast (last_line (readlines content)) in
       (len line <= 2 * 1 -> r = []) /\
       (2 * 1 < len line ->
          exists pre post, line = pre ++ r ++ post /\ len pre = 1 /\ len post = 1)).
Proof.
  intros fn content fs.
  assert (Hfile : fs !! fn = Some content) by apply lookup_singleton_eq.
  assert (Ht : 0 <= 1) by lia.
  split; [exact Hfile|]. split; [exact Ht|].
  exact (get_consensus_total fs fn content 1 Hfile Ht).
Defined.

(** ** The split of the running consensus *)

(** C4. [kept_len] is [max(0, len(whole_cons) - len(next_win_seq) -
    MERGE_MARGIN)] and is never negative, whatever the two lengths and
    the merge margin; the two slices taken at [kept_len] are defined
    and put together give back the running consensus, the first one
    being its first [min(kept_len, len(whole_cons))] characters. *)
Theorem kept_len_clamped (whole_cons next_win_seq : list ascii) (o : opts) :
  let k := kept_len whole_cons next_win_seq o in
  k = Z.max 0 (len whole_cons - len next_win_seq - MERGE_MARGIN o) /\
  0 <= k /\
  slice_to whole_cons k ++ slice_from whole_cons k = whole_cons /\
  len (slice_to whole_cons k) = Z.min k (len whole_cons).
Proof.
  intros k. assert (Hk : 0 <= k) by (unfold k, kept_len; lia).
  split; [reflexivity|]. split; [exact Hk|]. split.
  - apply slice_split, Hk.
  - rewrite slice_to_take by done. unfold len. rewrite length_take. lia.
Qed.

(** ** The stitching transition *)

Section Transition.
Context {E : External}.

Lemma missing_or_empty_true (fs : FS) fn :
  missing_or_empty fs fn = true <-> fs !! fn = None \/ fs !! fn = Some [].
Proof.
  unfold missing_or_empty. destruct (fs !! fn) as [c|].
  - rewrite bool_decide_eq_true. split.
    + intros ->. by right.
    + intros [Hnone|[= Hc]]; done.
  - split; [by left|done].
Qed.

Lemma missing_or_empty_false (fs : FS) fn :
  missing_or_empty fs fn = false <->
  exists c content, fs !! fn = Some (c :: content).
Proof.
  unfold missing_or_empty. destruct (fs !! fn) as [[|c content]|].
  - split; [done|]. intros (c & content & Hc). done.
  - split; [eauto|]. intros _. by apply bool_decide_eq_false.
  - split; [done|]. intros (c & content & Hc). done.
Qed.

Lemma os_remove_exists (fs : FS) fn content :
  fs !! fn = Some content -> os_remove fs fn = Ok (delete fn fs).
Proof. intros Hfn. unfold os_remove. rewrite Hfn. reflexivity. Qed.

Lemma run_spoa_and_consensus_runs (fs : FS) in_fn out_fn c content :
  fs !! in_fn = Some (c :: content) -> in_fn <> out_fn ->
  run_spoa_and_consensus fs in_fn out_fn =
    Ok (delete out_fn (delete in_fn (<[out_fn := spoa_pair (c :: content)]> fs)),
        consensus_of (spoa_pair (c :: content)) 0).
Proof.
  intros Hin Hne. unfold run_spoa_and_consensus. rewrite Hin.
  rewrite bool_decide_eq_false_2 by done.
  unfold get_consensus. rewrite lookup_insert_eq. simpl.
  rewrite (os_remove_exists _ in_fn (c :: content))
    by (by rewrite lookup_insert_ne).
  simpl. rewrite (os_remove_exists _ out_fn (spoa_pair (c :: content))).
  - reflexivity.
  - rewrite lookup_delete_ne by done. apply lookup_insert_eq.
Qed.

(** The transition on a window whose output file holds something. *)
Lemma add_next_window_runs (fs : FS) temp_fn w_idx cc_idx whole_cons o
    trim_margin c content :
  fs !! cnsns_fn cc_idx w_idx (READS_FMT o) = Some (c :: content) ->
  temp_fn <> poa_out_cons_fn cc_idx w_idx ->
  let next_win_seq := consensus_of (c :: content) trim_margin in
  let k := kept_len whole_cons next_win_seq o in
  let seam := seam_input w_idx (slice_from whole_cons k) next_win_seq in
  add_next_window fs temp_fn w_idx cc_idx whole_cons o trim_margin =
    Ok (delete (poa_out_cons_fn cc_idx w_idx)
          (delete temp_fn
             (<[poa_out_cons_fn cc_idx w_idx := spoa_pair seam]>
                (<[temp_fn := seam]> fs))),
        slice_to whole_cons k ++ consensus_of (spoa_pair seam) 0).
Proof.
  intros Hfile Hne next_win_seq k seam. unfold add_next_window.
  assert (Hm : missing_or_empty fs (cnsns_fn cc_idx w_idx (READS_FMT o)) = false)
    by (apply missing_or_empty_false; eauto).
  rewrite Hm. unfold get_consensus. rewrite Hfile. simpl.
  fold next_win_seq. fold k. fold seam.
  rewrite (run_spoa_and_consensus_runs _ temp_fn _ ">"%char
             (List.tl seam)); [reflexivity| |done].
  apply lookup_insert_eq.
Qed.

(** The transition on a window that fails the test on its output
    file. *)
Lemma add_next_window_skips (fs : FS) temp_fn w_idx cc_idx whole_cons o
    trim_margin :
  missing_or_empty fs (cnsns_fn cc_idx w_idx (READS_FMT o)) = true ->
  add_next_window fs temp_fn w_idx cc_idx whole_cons o trim_margin
  = Ok (fs, whole_cons).
Proof. intros Hm. unfold add_next_window. rewrite Hm. reflexivity. Qed.


(** C5. A transition returns the running consensus itself when the
    window has no output, and otherwise the kept prefix
    [whole_cons[:kept_len]] followed by the consensus that the engine
    gives for the tail [whole_cons[kept_len:]] and the next window:
    the first [len(kept)] characters of the result are those of the
    running consensus. *)
Theorem add_next_window_keeps_prefix (fs : FS) (temp_fn : path)
    (w_idx cc_idx : Z) (whole_cons : list ascii) (o : opts) (trim_margin : Z) :
  temp_fn <> poa_out_cons_fn cc_idx w_idx ->
  match fs !! cnsns_fn cc_idx w_idx (READS_FMT o) with
  | Some (c :: content) =>
      let next_win_seq := consensus_of (c :: content) trim_margin in
      let k := kept_len whole_cons next_win_seq o in
      let kept := slice_to whole_cons k in
      let tail := slice_from whole_cons k in
      let stitched_tail :=
        consensus_of (spoa_pair (seam_input w_idx tail next_win_seq)) 0 in
      whole_cons = kept ++ tail /\
      exists fs',
        add_next_window fs temp_fn w_idx cc_idx whole_cons o trim_margin
        = Ok (fs', kept ++ stitched_tail) /\
        take (length kept) (kept ++ stitched_tail)
        = take (length kept) whole_cons
  | _ =>
      add_next_window fs temp_fn w_idx cc_idx whole_cons o trim_margin
      = Ok (fs, whole_cons)
  end.
Proof.
  intros Hne.
  destruct (fs !! cnsns_fn cc_idx w_idx (READS_FMT o)) as [[|c content]|] eqn:Hfile.
  - apply add_next_window_skips, missing_or_empty_true. by right.
  - intros next_win_seq k kept tail stitched_tail.
    assert (Hsplit : whole_cons = kept ++ tail).
    { symmetry. apply slice_split. unfold k, kept_len. lia. }
    split; [exact Hsplit|]. eexists. split.
    + apply add_next_window_runs; eassumption.
    + pose proof (take_app_length kept tail) as Htake.
      rewrite <- Hsplit in Htake. rewrite Htake. apply take_app_length.
  - apply add_next_window_skips, missing_or_empty_true. by left.
Qed.

End Transition.



Lemma add_next_window_keeps_prefix_witness :
  let o := sample_opts 2 0 1 in
  let whole_cons := lit "ACGTACGTAC" in
  poa_in_cons_fn 0 1 <> poa_out_cons_fn 0 1
  /\ returned (add_next_window (E := keep_tail) six_windows (poa_in_cons_fn 0 1)
                1 0 whole_cons o 0)
     = Ok (slice_to whole_cons 8 ++ lit "AC").
Proof.
  intros o whole_cons.
  assert (Hne : poa_in_cons_fn 0 1 <> poa_out_cons_fn 0 1) by discriminate.
  split; [exact Hne|].
  pose proof (add_next_window_keeps_prefix (E := keep_tail) six_windows
                (poa_in_cons_fn 0 1) 1 0 whole_cons o 0 Hne) as Hstep.
  assert (Hfile : six_windows !! cnsns_fn 0 1 (READS_FMT o)
                  = Some (cnsns_content (lit "A"))) by reflexivity.
  rewrite Hfile in Hstep. cbv zeta in Hstep.
  destruct Hstep as [_ [fs' [Hrun _]]]. rewrite Hrun. reflexivity.
Defined.

(** ** Ranges and loops *)

Lemma xrange_empty a b : b <= a -> xrange a b = [].
Proof.
  intros Hab. unfold xrange. replace (Z.to_nat (b - a)) with 0%nat by lia.
  reflexivity.
Qed.

Lemma length_xrange a b : length (xrange a b) = Z.to_nat (b - a).
Proof. unfold xrange. rewrite length_fmap. apply length_seq. Qed.

Lemma elem_of_xrange a b w : w ∈ xrange a b <-> a <= w < b.
Proof.
  unfold xrange. rewrite list_elem_of_fmap. split.
  - intros (i & -> & Hi). apply elem_of_seq in Hi. lia.
  - intros Hw. exists (Z.to_nat (w - a)). split; [lia|].
    apply elem_of_seq. lia.
Qed.

Lemma xrange_app a b c :
  a <= b -> b <= c -> xrange a b ++ xrange b c = xrange a c.
Proof.
  intros Hab Hbc. unfold xrange.
  replace (Z.to_nat (c - a)) with (Z.to_nat (b - a) + Z.to_nat (c - b))%nat by lia.
  rewrite seq_app, fmap_app. f_equal. simpl.
  replace (seq (Z.to_nat (b - a)) (Z.to_nat (c - b)))
    with ((fun i => Z.to_nat (b - a) + i)%nat <$> seq 0 (Z.to_nat (c - b)))
    by (rewrite fmap_add_seq; f_equal; lia).
  rewrite <- list_fmap_compose.
  apply list_fmap_ext. intros _ i _. simpl. lia.
Qed.

Lemma NoDup_xrange a b : NoDup (xrange a b).
Proof.
  unfold xrange. apply NoDup_fmap_2; [|apply NoDup_seq].
  intros i j Hij. lia.
Qed.

Lemma for_each_app {X S} (xs ys : list X) (body : X -> S -> result S) s :
  for_each (xs ++ ys) body s = (s' ← for_each xs body s; for_each ys body s').
Proof.
  revert s. induction xs as [|x xs IH]; intros s; simpl; [reflexivity|].
  destruct (body x s) as [s1|e]; simpl; [apply IH|reflexivity].
Qed.

Lemma for_each_fmap {X Y S} (f : X -> Y) (xs : list X)
    (body : Y -> S -> result S) s :
  for_each (f <$> xs) body s = for_each xs (fun x => body (f x)) s.
Proof.
  revert s. induction xs as [|x xs IH]; intros s; simpl; [reflexivity|].
  destruct (body (f x) s) as [s1|e]; simpl; [apply IH|reflexivity].
Qed.

(** ** The order of the transitions *)

Section Schedule.
Context {E : External}.

(** The three loops of [merge_windows_in_cc] are one loop over
    [schedule]. *)
Lemma merge_windows_from_schedule n (fs : FS) cc_idx o :
  merge_windows_from n fs cc_idx o =
    (whole_cons ← get_consensus fs (cnsns_fn cc_idx 0 (READS_FMT o)) (TRIM_MARGIN o);
     st ← for_each (schedule n o)
            (fun wm => merge_step cc_idx o wm.2 wm.1) (fs, whole_cons);
     Ok (<[consensus_fn cc_idx := consensus_record cc_idx st.2]> st.1, st.2)).
Proof.
  unfold merge_windows_from, schedule.
  destruct (get_consensus fs _ _) as [whole_cons|e]; [|reflexivity].
  cbv [mbind result_bind]; cbv beta iota.
  rewrite for_each_app, for_each_fmap. cbn [fst snd].
  destruct (for_each (xrange 0 3) _ _) as [st1|e]; [|reflexivity].
  cbv [mbind result_bind]; cbv beta iota.
  rewrite for_each_app, !for_each_fmap. cbn [fst snd].
  destruct (for_each (xrange 3 (n - 3)) _ _) as [st2|e]; [|reflexivity].
  cbv [mbind result_bind]; cbv beta iota.
  rewrite for_each_fmap. reflexivity.
Qed.

End Schedule.

Lemma schedule_indices n o : 6 <= n -> (schedule n o).*1 = xrange 0 n.
Proof.
  intros Hn. unfold schedule.
  rewrite !fmap_app, <- !list_fmap_compose.
  rewrite !(list_fmap_ext _ id (xrange _ _)) by done.
  rewrite !list_fmap_id.
  rewrite (xrange_app 3 (n - 3) n), (xrange_app 0 3 n) by lia. reflexivity.
Qed.

Lemma elem_of_schedule n o w m :
  (w, m) ∈ schedule n o <->
  (0 <= w < 3 /\ m = 0)
  \/ (3 <= w < n - 3 /\ m = TRIM_MARGIN o)
  \/ (n - 3 <= w < n /\ m = 0).
Proof.
  unfold schedule. rewrite !elem_of_app, !list_elem_of_fmap.
  setoid_rewrite elem_of_xrange. split.
  - intros [(w' & [= -> ->] & Hw)|[(w' & [= -> ->] & Hw)|(w' & [= -> ->] & Hw)]];
      [left|right; left|right; right]; done.
  - intros [[Hw ->]|[[Hw ->]|[Hw ->]]];
      [left|right; left|right; right]; exists w; done.
Qed.

Section Stitcher.
Context {E : External}.


(** The margins against the count [n] of the stitching phase: the
    transitions of [merge_windows_in_cc] are those of [schedule]; every
    transition on a window [w] uses the margin 0 when [w] is among the
    first three or the last three of [n] windows and [TRIM_MARGIN]
    otherwise, and every window [0 <= w < n] has such a transition.
    For ten windows and a margin of 50 the windows 0, 1, 2, 7, 8, 9 use
    0 and the windows 3 to 6 use 50. *)
Theorem trim_margin_schedule (fs : FS) (cc_idx : Z) (o : opts) :
  merge_windows_in_cc fs cc_idx o =
    (whole_cons ← get_consensus fs (cnsns_fn cc_idx 0 (READS_FMT o)) (TRIM_MARGIN o);
     st ← for_each (schedule (n_win fs cc_idx) o)
            (fun wm => merge_step cc_idx o wm.2 wm.1) (fs, whole_cons);
     Ok (<[consensus_fn cc_idx := consensus_record cc_idx st.2]> st.1, st.2))
  /\ (forall n w m, (w, m) ∈ schedule n o -> m = trimMargin n o w)
  /\ (forall n w, 0 <= w < n -> (w, trimMargin n o w) ∈ schedule n o)
  /\ schedule 10 (sample_opts 2 50 0)
     = [(0, 0); (1, 0); (2, 0); (3, 50); (4, 50); (5, 50); (6, 50);
        (7, 0); (8, 0); (9, 0)].
Proof.
  split; [apply merge_windows_from_schedule|]. split; [|split].
  - intros n w m Hin. apply elem_of_schedule in Hin. unfold trimMargin.
    destruct (Z.ltb_spec w 3), (Z.leb_spec (n - 3) w); simpl; lia.
  - intros n w Hw. apply elem_of_schedule. unfold trimMargin.
    destruct (Z.ltb_spec w 3), (Z.leb_spec (n - 3) w); simpl; lia.
  - reflexivity.
Qed.

End Stitcher.


Lemma trim_margin_schedule_witness :
  let o := sample_opts 2 50 0 in
  (4, 50) ∈ schedule 10 o /\ 50 = trimMargin 10 o 4
  /\ 0 <= 8 < 10 /\ (8, trimMargin 10 o 8) ∈ schedule 10 o.
Proof.
  intros o.
  destruct (trim_margin_schedule (E := echo) six_windows 0 o)
    as (_ & Hmargin & Hall & Hten).
  assert (Hin : (4, 50) ∈ schedule 10 o).
  { unfold o. rewrite Hten. apply list_elem_of_In. simpl. tauto. }
  assert (Hw : 0 <= 8 < 10) by lia.
  split; [exact Hin|]. split; [exact (Hmargin 10 4 50 Hin)|].
  split; [exact Hw|]. exact (Hall 10 8 Hw).
Defined.


(** ** The fragments of a window *)

Lemma py_get_lookup {A} (l : list A) (i : nat) x :
  l !! i = Some x -> py_get l (Z.of_nat i) = Ok x.
Proof.
  intros Hl. unfold py_get. cbv zeta.
  destruct (Z.ltb_spec (Z.of_nat i) 0); [lia|]. cbv iota.
  destruct (Z.ltb_spec (Z.of_nat i) 0); [lia|].
  rewrite Nat2Z.id, Hl. reflexivity.
Qed.

Lemma py_get_in_range {A} (l : list A) (i : Z) :
  0 <= i < len l -> exists x, l !! Z.to_nat i = Some x /\ py_get l i = Ok x.
Proof.
  intros Hi. unfold py_get. cbv zeta.
  destruct (Z.ltb_spec i 0); [lia|]. cbv iota.
  destruct (Z.ltb_spec i 0); [lia|].
  destruct (l !! Z.to_nat i) as [x|] eqn:Hl; [eauto|].
  apply lookup_ge_None in Hl. unfold len in Hi. lia.
Qed.

Lemma rec_slice_length r bb ee :
  0 <= bb <= ee -> ee <= len (rec_seq r) ->
  len (rec_seq (rec_slice r bb ee)) = ee - bb.
Proof.
  intros Hbb Hee. unfold rec_slice, slice. simpl.
  rewrite !slice_bound_nonneg by lia.
  unfold len in *. rewrite length_take, length_drop. lia.
Qed.

Lemma spec_fragment_length w_b w_e r b e f :
  spec_fragment w_b w_e r b e = Some f ->
  b < w_e /\ e > w_b /\
  f = rec_slice r (Z.max 0 (w_b - b)) (Z.min (len (rec_seq r)) (w_e - b)) /\
  len (rec_seq f) = Z.min (len (rec_seq r)) (w_e - b) - Z.max 0 (w_b - b) /\
  20 <= len (rec_seq f).
Proof.
  unfold spec_fragment.
  destruct (Z.ltb_spec b w_e), (Z.gtb_spec e w_b); simpl; try done.
  destruct (Z.ltb_spec (Z.min (len (rec_seq r)) (w_e - b) - Z.max 0 (w_b - b)) 20);
    [done|].
  intros [= <-]. rewrite rec_slice_length by lia. repeat split; lia.
Qed.

Section Fragments.
Context {E : External}.
Context (record_list : list record) (cc bpos_list : list Z) (w_b w_e : Z).

Local Abbreviation body := (window_step record_list cc bpos_list w_b w_e).
Local Abbreviation pick := (spec_pick w_b w_e record_list).

(** One read that passes the selection test. *)
Lemma window_piece_selected (i : nat) c b e :
  cc !! i = Some c -> bpos_list !! i = Some b ->
  0 <= c < len record_list ->
  (b <? w_e) && (e >? w_b) = true ->
  window_piece record_list cc bpos_list w_b w_e (Z.of_nat i)
  = Ok (pick (c, (b, e))).
Proof.
  intros Hc Hb Hrange Hsel. unfold window_piece, spec_pick.
  rewrite (py_get_lookup cc i c Hc). simpl.
  destruct (py_get_in_range record_list c Hrange) as (r & Hr & ->). simpl.
  rewrite (py_get_lookup bpos_list i b Hb). simpl.
  rewrite Hr. simpl. unfold spec_fragment. rewrite Hsel.
  destruct (_ <? 20); reflexivity.
Qed.

Lemma pick_not_selected c b e :
  (b <? w_e) && (e >? w_b) = false -> pick (c, (b, e)) = None.
Proof.
  intros Hsel. unfold spec_pick, spec_fragment. rewrite Hsel.
  destruct (record_list !! Z.to_nat c); reflexivity.
Qed.

(** The loop of [fill_window], from read [i] on. *)
Lemma window_loop_from (cs bs es : list Z) (i : nat) (acc : list record) :
  length cs = length bs -> length bs = length es ->
  (forall j c, cs !! j = Some c -> cc !! (i + j)%nat = Some c) ->
  (forall j b, bs !! j = Some b -> bpos_list !! (i + j)%nat = Some b) ->
  (forall c, c ∈ cs -> 0 <= c < len record_list) ->
  for_each
    (flatnonzero_from (Z.of_nat i)
       (zip_with andb ((fun b => b <? w_e) <$> bs) ((fun e => e >? w_b) <$> es)))
    body acc
  = Ok (acc ++ omap pick (zip cs (zip bs es))).
Proof.
  revert cs es i acc.
  induction bs as [|b bs IH]; intros cs es i acc Hcb Hbe Hcc Hbpos Hrange.
  - destruct cs; [|done]. simpl. rewrite app_nil_r. reflexivity.
  - destruct cs as [|c cs]; [done|]. destruct es as [|e es]; [done|].
    simpl in Hcb, Hbe.
    assert (Hrest : forall acc',
      for_each
        (flatnonzero_from (Z.of_nat i + 1)
           (zip_with andb ((fun b => b <? w_e) <$> bs)
                          ((fun e => e >? w_b) <$> es)))
        body acc'
      = Ok (acc' ++ omap pick (zip cs (zip bs es)))).
    { intros acc'. replace (Z.of_nat i + 1) with (Z.of_nat (S i)) by lia.
      apply IH; [lia|lia| | |].
      - intros j c' Hj. replace (S i + j)%nat with (i + S j)%nat by lia.
        apply Hcc. exact Hj.
      - intros j b' Hj. replace (S i + j)%nat with (i + S j)%nat by lia.
        apply Hbpos. exact Hj.
      - intros c' Hc'. apply Hrange. by right. }
    change (zip (c :: cs) (zip (b :: bs) (e :: es)))
      with ((c, (b, e)) :: zip cs (zip bs es)).
    change (omap pick ((c, (b, e)) :: zip cs (zip bs es)))
      with (match pick (c, (b, e)) with
            | Some y => y :: omap pick (zip cs (zip bs es))
            | None => omap pick (zip cs (zip bs es))
            end).
    change (zip_with andb ((fun b => b <? w_e) <$> b :: bs)
              ((fun e => e >? w_b) <$> e :: es))
      with (((b <? w_e) && (e >? w_b))
            :: zip_with andb ((fun b => b <? w_e) <$> bs)
                 ((fun e => e >? w_b) <$> es)).
    cbn [flatnonzero_from].
    destruct ((b <? w_e) && (e >? w_b)) eqn:Hsel.
    + assert (Hbody : body (Z.of_nat i) acc
                      = Ok (match pick (c, (b, e)) with
                            | Some r => acc ++ [r]
                            | None => acc
                            end)).
      { unfold window_step. rewrite (window_piece_selected i c b e); [done| | | |done].
        - replace i with (i + 0)%nat by lia. by apply Hcc.
        - replace i with (i + 0)%nat by lia. by apply Hbpos.
        - apply Hrange. by left. }
      cbn [for_each]. rewrite Hbody, bind_Ok.
      destruct (pick (c, (b, e))) as [y|].
      * rewrite Hrest, <- app_assoc. reflexivity.
      * apply Hrest.
    + rewrite pick_not_selected by done. apply Hrest.
Qed.

End Fragments.

Lemma elem_of_spec_fragments w_b w_e record_list cc bpos_list epos_list f :
  f ∈ spec_fragments w_b w_e record_list cc bpos_list epos_list <->
  exists (i : nat) c b e r,
    cc !! i = Some c /\ bpos_list !! i = Some b /\ epos_list !! i = Some e /\
    record_list !! Z.to_nat c = Some r /\
    spec_fragment w_b w_e r b e = Some f.
Proof.
  unfold spec_fragments. rewrite list_elem_of_omap. split.
  - intros ([c [b e]] & Hin & Hpick).
    apply elem_of_lookup_zip_with in Hin as (i & c' & be & [= <- <-] & Hc & Hbe).
    apply lookup_zip_with_Some in Hbe as (b' & e' & [= <- <-] & Hb & He).
    unfold spec_pick in Hpick.
    destruct (record_list !! Z.to_nat c) as [r|] eqn:Hr; [|done].
    exists i, c, b, e, r. done.
  - intros (i & c & b & e & r & Hc & Hb & He & Hr & Hfrag).
    exists (c, (b, e)). split.
    + apply elem_of_lookup_zip_with. exists i, c, (b, e).
      split; [done|]. split; [done|].
      apply lookup_zip_with_Some. eauto.
    + unfold spec_pick. rewrite Hr. exact Hfrag.
Qed.

Section FillWindow.
Context {E : External}.

(** The loop of [fill_window] writes the fragments of the
    specification, in the order of the reads. *)
Lemma window_fragments_spec (w_idx : Z) (record_list : list record)
    (cc bpos_list epos_list : list Z) (o : opts) :
  length cc = length bpos_list -> length bpos_list = length epos_list ->
  (forall c, c ∈ cc -> 0 <= c < len record_list) ->
  window_fragments w_idx record_list cc bpos_list epos_list o
  = Ok (spec_fragments ((W_LEN o - W_OVL_LEN o) * w_idx)
          ((W_LEN o - W_OVL_LEN o) * w_idx + W_LEN o)
          record_list cc bpos_list epos_list).
Proof.
  intros Hcb Hbe Hrange. unfold window_fragments, reads_in_w, flatnonzero.
  apply (window_loop_from record_list cc bpos_list _ _
           cc bpos_list epos_list 0 []); auto.
Qed.

(** C6. For the window [w_b, w_e) of index [w_idx], with one
    coordinate pair and one valid read index per read of the
    component, [fill_window] and [fill_and_run_spoa] write to the
    window input file the formatted pieces of exactly the reads with
    [begin < w_e] and [end > w_b], clipped to
    [max(0, w_b - begin), min(readLength, w_e - begin)], and leave out
    the pieces shorter than 20: a piece of a kept read has its clipped
    length, which is at least 20; a read of 19 bases gives no piece,
    a read of 20 bases gives one. *)
Theorem fill_window_fragments (fs : FS) (w_idx : Z) (record_list : list record)
    (cc_idx : Z) (cc bpos_list epos_list : list Z) (o : opts) :
  length cc = length bpos_list -> length bpos_list = length epos_list ->
  (forall c, c ∈ cc -> 0 <= c < len record_list) ->
  let w_b := (W_LEN o - W_OVL_LEN o) * w_idx in
  let w_e := w_b + W_LEN o in
  let frags := spec_fragments w_b w_e record_list cc bpos_list epos_list in
  let fs' := <[poa_in_fn cc_idx w_idx (READS_FMT o) :=
                poa_in_content (READS_FMT o) frags]> fs in
  window_fragments w_idx record_list cc bpos_list epos_list o = Ok frags
  /\ fill_window fs w_idx record_list cc_idx cc bpos_list epos_list o = Ok fs'
  /\ fill_and_run_spoa fs w_idx record_list cc_idx cc bpos_list epos_list o
     = Ok (run_spoa fs' cc_idx w_idx (READS_FMT o))
  /\ (forall f, f ∈ frags <->
        exists (i : nat) c b e r,
          cc !! i = Some c /\ bpos_list !! i = Some b /\
          epos_list !! i = Some e /\ record_list !! Z.to_nat c = Some r /\
          b < w_e /\ e > w_b /\
          let bb := Z.max 0 (w_b - b) in
          let ee := Z.min (len (rec_seq r)) (w_e - b) in
          20 <= ee - bb /\ f = rec_slice r bb ee /\ len (rec_seq f) = ee - bb)
  /\ window_fragments 0 [read_of_length 19] [0] [0] [19] (sample_opts 2 0 0)
     = Ok []
  /\ window_fragments 0 [read_of_length 20] [0] [0] [20] (sample_opts 2 0 0)
     = Ok [read_of_length 20].
Proof.
  intros Hcb Hbe Hrange w_b w_e frags fs'.
  assert (Hfrags :
    window_fragments w_idx record_list cc bpos_list epos_list o = Ok frags)
    by (by apply window_fragments_spec).
  split; [exact Hfrags|]. split; [|split; [|split; [|split]]].
  - unfold fill_window. rewrite Hfrags. reflexivity.
  - unfold fill_and_run_spoa. rewrite Hfrags. reflexivity.
  - intros f. unfold frags. rewrite elem_of_spec_fragments. split.
    + intros (i & c & b & e & r & Hc & Hb & He & Hr & Hfrag).
      apply spec_fragment_length in Hfrag as (? & ? & ? & ? & ?).
      exists i, c, b, e, r. repeat split; try done; lia.
    + intros (i & c & b & e & r & Hc & Hb & He & Hr & Hlt & Hgt & Hlen & -> & _).
      exists i, c, b, e, r. repeat split; try done.
      unfold spec_fragment.
      destruct (Z.ltb_spec b w_e); [|lia].
      destruct (Z.gtb_spec e w_b); [|lia]. simpl.
      destruct (Z.ltb_spec
                  (Z.min (len (rec_seq r)) (w_e - b) - Z.max 0 (w_b - b)) 20);
        [lia|done].
  - reflexivity.
  - reflexivity.
Qed.

End FillWindow.

Lemma fill_window_fragments_witness :
  let w_b := (W_LEN scenario_opts - W_OVL_LEN scenario_opts) * 1 in
  let w_e := w_b + W_LEN scenario_opts in
  length scenario_cc = length scenario_bpos
  /\ length scenario_bpos = length scenario_epos
  /\ window_fragments 1 scenario_reads scenario_cc scenario_bpos scenario_epos
       scenario_opts
     = Ok (spec_fragments w_b w_e scenario_reads scenario_cc scenario_bpos
             scenario_epos)
  /\ spec_fragments w_b w_e scenario_reads scenario_cc scenario_bpos scenario_epos
     = [rec_slice (read_of_length 100) 80 100;
        rec_slice (read_of_length 100) 30 100;
        rec_slice (read_of_length 80) 0 60].
Proof.
  intros w_b w_e.
  assert (H1 : length scenario_cc = length scenario_bpos) by reflexivity.
  assert (H2 : length scenario_bpos = length scenario_epos) by reflexivity.
  assert (H3 : forall c, c ∈ scenario_cc -> 0 <= c < len scenario_reads).
  { intros c Hc. apply list_elem_of_In in Hc. unfold len. simpl in *. lia. }
  split; [exact H1|]. split; [exact H2|]. split; [|reflexivity].
  exact (proj1 (fill_window_fragments (E := echo) ∅ 1 scenario_reads 0
                  scenario_cc scenario_bpos scenario_epos scenario_opts
                  H1 H2 H3)).
Defined.

(** ** The production stage *)

Section Pool.
Context {E : External}.
Context (record_list : list record) (cc_idx : Z) (cc bpos_list epos_list : list Z)
        (o : opts).
Context (Hcb : length cc = length bpos_list)
        (Hbe : length bpos_list = length epos_list)
        (Hrange : forall c, c ∈ cc -> 0 <= c < len record_list).

Local Abbreviation fmt := (READS_FMT o).
Local Abbreviation content w :=
  (poa_in_content (READS_FMT o)
     (spec_fragments ((W_LEN o - W_OVL_LEN o) * w)
        ((W_LEN o - W_OVL_LEN o) * w + W_LEN o)
        record_list cc bpos_list epos_list)).
Local Abbreviation task :=
  (fun w_idx (fs : FS) =>
     fill_and_run_spoa fs w_idx record_list cc_idx cc bpos_list epos_list o).

(** One task: the input of the window is written, the output is
    written when the input is not empty, and no other file changes. *)
Lemma fill_and_run_spoa_files (fs : FS) w :
  exists fs1 : FS,
    task w fs = Ok fs1
    /\ fs1 !! poa_in_fn cc_idx w fmt = Some (content w)
    /\ fs1 !! cnsns_fn cc_idx w fmt
       = (if bool_decide (content w = []) then fs !! cnsns_fn cc_idx w fmt
          else Some (spoa_msa fmt (content w)))
    /\ forall p, p <> poa_in_fn cc_idx w fmt -> p <> cnsns_fn cc_idx w fmt ->
                 fs1 !! p = fs !! p.
Proof.
  eexists. split.
  { unfold fill_and_run_spoa.
    rewrite (window_fragments_spec w record_list cc bpos_list epos_list o
               Hcb Hbe Hrange), bind_Ok. reflexivity. }
  unfold run_spoa.
  rewrite lookup_insert_eq.
  destruct (bool_decide (content w = [])) eqn:Hempty.
  - split; [apply lookup_insert_eq|]. split.
    + by rewrite lookup_insert_ne.
    + intros p Hp _. by rewrite lookup_insert_ne.
  - split; [by rewrite lookup_insert_ne, lookup_insert_eq|]. split.
    + apply lookup_insert_eq.
    + intros p Hp Hp'. by rewrite !lookup_insert_ne.
Qed.

(** The tasks of a list of windows, one after the other. *)
Lemma pool_files (ws : list Z) (fs : FS) :
  exists fs' : FS,
    for_each ws task fs = Ok fs'
    /\ (forall w, w ∈ ws ->
          fs' !! poa_in_fn cc_idx w fmt = Some (content w)
          /\ fs' !! cnsns_fn cc_idx w fmt
             = (if bool_decide (content w = []) then fs !! cnsns_fn cc_idx w fmt
                else Some (spoa_msa fmt (content w))))
    /\ (forall p, (forall w, w ∈ ws -> p <> poa_in_fn cc_idx w fmt
                                      /\ p <> cnsns_fn cc_idx w fmt) ->
                  fs' !! p = fs !! p).
Proof.
  revert fs. induction ws as [|x ws IH]; intros fs.
  - exists fs. split; [reflexivity|]. split; [|done].
    intros w Hw. by apply elem_of_nil in Hw.
  - destruct (fill_and_run_spoa_files fs x) as (fs1 & Hrun & Hin & Hout & Hframe).
    destruct (IH fs1) as (fs' & Hloop & Hfiles & Hrest).
    exists fs'. split; [|split].
    + cbn [for_each]. rewrite Hrun, bind_Ok. exact Hloop.
    + intros w Hw.
      destruct (decide (w ∈ ws)) as [Hws|Hws].
      * destruct (Hfiles w Hws) as [Hpi Hcn]. split; [exact Hpi|].
        rewrite Hcn. destruct (bool_decide (content w = [])) eqn:Hempty; [|done].
        destruct (decide (w = x)) as [->|Hne].
        -- rewrite Hout, Hempty. reflexivity.
        -- apply Hframe; congruence.
      * apply elem_of_cons in Hw as [->|Hw]; [|done].
        rewrite !Hrest.
        -- split; [exact Hin|exact Hout].
        -- intros w Hw. split; [done|]. intros [= ->]. done.
        -- intros w Hw. split; [|done]. intros [= ->]. done.
    + intros p Hp. rewrite Hrest.
      * apply Hframe; apply (Hp x); by left.
      * intros w Hw. apply Hp. by right.
Qed.

End Pool.

Lemma py_set_in_range {A} (l : list A) (i : Z) x :
  0 <= i < len l -> py_set l i x = Ok (<[Z.to_nat i := x]> l).
Proof.
  intros Hi. unfold py_set. cbv zeta.
  destruct (Z.ltb_spec i 0); [lia|]. cbv iota.
  destruct (Z.ltb_spec i 0); [lia|].
  destruct (Z.leb_spec (len l) i); [lia|]. reflexivity.
Qed.

Lemma elem_of_enumerate {A} (l : list A) idx x :
  (idx, x) ∈ enumerate l -> 0 <= idx < len l /\ x ∈ l.
Proof.
  unfold enumerate. intros Hin. split.
  - apply elem_of_zip_l in Hin. by apply elem_of_xrange in Hin.
  - by apply elem_of_zip_r in Hin.
Qed.

Section PoolRun.
Context {E : External}.

(** The strand loop ends and keeps the number of records. *)
Lemma reverse_loop_total (strand_list : list bool) (n : nat)
    (pairs : list (Z * Z)) (record_list : list record) :
  (forall idx c, (idx, c) ∈ pairs ->
                 0 <= idx < len strand_list /\ 0 <= c < Z.of_nat n) ->
  length record_list = n ->
  exists record_list',
    for_each pairs
      (fun '(idx, read_idx) record_list =>
         strand ← py_get strand_list idx;
         if negb strand then
           r ← py_get record_list read_idx;
           let read_id := rec_id r in
           let rc := reverse_complement r in
           py_set record_list read_idx
             {| rec_id := read_id; rec_seq := rec_seq rc |}
         else Ok record_list)
      record_list
    = Ok record_list'
    /\ length record_list' = n.
Proof.
  revert record_list.
  induction pairs as [|[idx c] pairs IH]; intros record_list Hpairs Hlen.
  - exists record_list. done.
  - destruct (Hpairs idx c) as [Hidx Hc]; [by left|].
    assert (Hc' : 0 <= c < len record_list) by (unfold len; lia).
    cbn [for_each].
    destruct (py_get_in_range strand_list idx Hidx) as (strand & _ & ->).
    rewrite bind_Ok.
    destruct strand; cbn [negb].
    + rewrite bind_Ok. apply IH; [|done].
      intros idx' c' Hin. apply Hpairs. by right.
    + destruct (py_get_in_range record_list c Hc') as (r & _ & ->).
      rewrite bind_Ok. cbv zeta. rewrite py_set_in_range by done.
      rewrite bind_Ok. apply IH.
      * intros idx' c' Hin. apply Hpairs. by right.
      * by rewrite length_insert.
Qed.

Lemma reverse_reads_total record_list cc strand_list :
  length strand_list = length cc ->
  (forall c, c ∈ cc -> 0 <= c < len record_list) ->
  exists record_list',
    reverse_reads record_list cc strand_list = Ok record_list'
    /\ length record_list' = length record_list.
Proof.
  intros Hsc Hrange. unfold reverse_reads.
  apply reverse_loop_total; [|done].
  intros idx c Hin. apply elem_of_enumerate in Hin as [Hidx Hc].
  split; [unfold len in *; lia|]. by apply Hrange.
Qed.

Lemma n_windows_total bpos_list epos_list o :
  bpos_list <> [] -> epos_list <> [] ->
  exists n b_min,
    n_windows bpos_list epos_list o = Ok n /\ np_min bpos_list = Ok b_min.
Proof.
  intros Hb He. unfold n_windows.
  destruct epos_list as [|e es]; [done|].
  destruct bpos_list as [|b bs]; [done|].
  simpl. eauto.
Qed.

(** With a pool of at least two processes, [run_spoa_in_cc] returns, and
    for every window index in [0, n) the window input holds the
    formatted fragments and, when this input is not empty, the output
    file holds what the engine gave for it; the other files are left
    as they were. *)
Lemma run_spoa_in_cc_pool (fs : FS) record_list cc_idx cc strand_list
    bpos_list epos_list o :
  1 < N_PROC o ->
  bpos_list <> [] ->
  length cc = length bpos_list -> length bpos_list = length epos_list ->
  length strand_list = length cc ->
  (forall c, c ∈ cc -> 0 <= c < len record_list) ->
  exists n b_min record_list' (fs' : FS),
    n_windows bpos_list epos_list o = Ok n
    /\ np_min bpos_list = Ok b_min
    /\ reverse_reads record_list cc strand_list = Ok record_list'
    /\ run_spoa_in_cc fs record_list cc_idx cc strand_list bpos_list epos_list o
       = Ok (fs', record_list')
    /\ (forall w, 0 <= w < n ->
         let w_b := (W_LEN o - W_OVL_LEN o) * w in
         let w_e := w_b + W_LEN o in
         let content :=
           poa_in_content (READS_FMT o)
             (spec_fragments w_b w_e record_list' cc
                ((fun b => b - b_min) <$> bpos_list)
                ((fun e => e - b_min) <$> epos_list)) in
         fs' !! poa_in_fn cc_idx w (READS_FMT o) = Some content
         /\ fs' !! cnsns_fn cc_idx w (READS_FMT o)
            = (if bool_decide (content = [])
               then fs !! cnsns_fn cc_idx w (READS_FMT o)
               else Some (spoa_msa (READS_FMT o) content)))
    /\ (forall p, (forall w, 0 <= w < n ->
                     p <> poa_in_fn cc_idx w (READS_FMT o)
                     /\ p <> cnsns_fn cc_idx w (READS_FMT o)) ->
                  fs' !! p = fs !! p).
Proof.
  intros Hproc Hb Hcb Hbe Hsc Hrange.
  assert (He : epos_list <> []).
  { intros ->. destruct bpos_list; [done|]. simpl in Hbe. lia. }
  destruct (n_windows_total bpos_list epos_list o Hb He) as (n & b_min & Hn & Hmin).
  destruct (reverse_reads_total record_list cc strand_list Hsc Hrange)
    as (record_list' & Hrev & Hlen).
  destruct (pool_files record_list' cc_idx cc
              ((fun b => b - b_min) <$> bpos_list)
              ((fun e => e - b_min) <$> epos_list) o) with (ws := xrange 0 n) (fs := fs)
    as (fs' & Hloop & Hfiles & Hframe).
  { by rewrite length_fmap. }
  { by rewrite !length_fmap. }
  { intros c Hc. unfold len. rewrite Hlen. by apply Hrange. }
  exists n, b_min, record_list', fs'.
  split; [exact Hn|]. split; [exact Hmin|]. split; [exact Hrev|].
  split; [|split].
  - unfold run_spoa_in_cc. rewrite Hn, bind_Ok, Hmin, bind_Ok, Hrev, bind_Ok.
    destruct (Z.ltb_spec 1 (N_PROC o)); [|lia].
    rewrite Hloop. reflexivity.
  - intros w Hw. apply Hfiles. by apply elem_of_xrange.
  - intros p Hp. apply Hframe. intros w Hw. apply Hp. by apply elem_of_xrange.
Qed.

End PoolRun.


Section Production.
Context {E : External}.

(** Without a pool of at least two processes, no window is written
    and none is submitted to the engine. *)
Lemma run_spoa_in_cc_no_pool (fs fs' : FS) record_list record_list' cc_idx cc
    strand_list bpos_list epos_list o :
  N_PROC o <= 1 ->
  run_spoa_in_cc fs record_list cc_idx cc strand_list bpos_list epos_list o
  = Ok (fs', record_list') ->
  fs' = fs.
Proof.
  intros Hproc. unfold run_spoa_in_cc.
  destruct (n_windows _ _ _) as [n|]; [|done]. rewrite bind_Ok.
  destruct (np_min _) as [b_min|]; [|done]. rewrite bind_Ok.
  destruct (reverse_reads _ _ _) as [rl|]; [|done]. rewrite bind_Ok.
  destruct (Z.ltb_spec 1 (N_PROC o)); [lia|].
  intros [= <- _]. reflexivity.
Qed.

(** An empty component: the maximum of no end coordinate. *)
Lemma run_spoa_in_cc_no_reads (fs : FS) record_list cc_idx cc strand_list
    bpos_list o :
  run_spoa_in_cc fs record_list cc_idx cc strand_list bpos_list [] o
  = Raise ValueError.
Proof. reflexivity. Qed.

(** No output file for window 0: [open] fails in [get_consensus]. *)
Lemma merge_windows_in_cc_no_window_0 (fs : FS) cc_idx o :
  fs !! cnsns_fn cc_idx 0 (READS_FMT o) = None ->
  merge_windows_in_cc fs cc_idx o = Raise IOError.
Proof.
  intros Hfile. unfold merge_windows_in_cc, merge_windows_from, get_consensus.
  rewrite Hfile. reflexivity.
Qed.

End Production.

(** C8 fails for one process.  With [N_PROC = 1] the partitioner counts
    three windows for the two reads on [0,100) and [50,210), and
    [run_spoa_in_cc] returns with the file system as it was: no window
    input is written and no consensus is recorded. *)
Theorem run_spoa_in_cc_single_process :
  let o := sample_opts 1 0 0 in
  n_windows short_end_bpos short_end_epos o = Ok 3
  /\ run_spoa_in_cc (E := echo) ∅ short_end_reads 0 short_end_cc
       short_end_strands short_end_bpos short_end_epos o
     = Ok (∅, short_end_reads).
Proof. split; reflexivity. Qed.

(** ** The window count *)

Lemma cnsns_fn_inj cc_idx fmt : Inj (=) (=) (fun w => cnsns_fn cc_idx w fmt).
Proof. intros w1 w2 [= ->]. reflexivity. Qed.

(** The listing counts the windows of [ws] when exactly these have an
    output file. *)
Lemma n_win_of_windows (fs : FS) cc_idx fmt (ws : list Z) :
  NoDup ws ->
  (forall p, p ∈ dom fs /\ is_cnsns_of cc_idx p = true <->
             exists w, w ∈ ws /\ p = cnsns_fn cc_idx w fmt) ->
  n_win fs cc_idx = len ws.
Proof.
  intros Hnodup Hfiles. unfold n_win, ls_wc.
  assert (Hset : filter (fun p => is_cnsns_of cc_idx p = true) (dom fs)
                 = list_to_set ((fun w => cnsns_fn cc_idx w fmt) <$> ws)).
  { apply set_eq. intros p.
    rewrite elem_of_filter, elem_of_list_to_set, list_elem_of_fmap. split.
    - intros [Hp Hdom]. destruct (proj1 (Hfiles p)) as (w & Hw & ->); eauto.
    - intros (w & -> & Hw). apply and_comm, Hfiles. eauto. }
  rewrite Hset, size_list_to_set.
  - unfold len. by rewrite length_fmap.
  - apply NoDup_fmap_2; [apply cnsns_fn_inj|exact Hnodup].
Qed.

Lemma n_win_complete (fs : FS) cc_idx n fmt :
  0 <= n ->
  (forall p, p ∈ dom fs -> is_cnsns_of cc_idx p = true ->
             exists w, 0 <= w < n /\ p = cnsns_fn cc_idx w fmt) ->
  (forall w, 0 <= w < n -> cnsns_fn cc_idx w fmt ∈ dom fs) ->
  n_win fs cc_idx = n.
Proof.
  intros Hn Honly Hall.
  rewrite (n_win_of_windows fs cc_idx fmt (xrange 0 n)).
  - unfold len. rewrite length_xrange. lia.
  - apply NoDup_xrange.
  - intros p. setoid_rewrite elem_of_xrange. split.
    + intros [Hdom Hp]. by apply Honly.
    + intros (w & Hw & ->). split; [by apply Hall|].
      simpl. by apply bool_decide_eq_true.
Qed.

Section WindowCount.
Context {E : External}.

(** After the production stage on a directory that held no output file
    of the component, the listing counts the windows of [0, n) whose
    input is not empty. *)
Lemma n_win_after_production (fs : FS) record_list cc_idx cc strand_list
    bpos_list epos_list o :
  1 < N_PROC o ->
  bpos_list <> [] ->
  length cc = length bpos_list -> length bpos_list = length epos_list ->
  length strand_list = length cc ->
  (forall c, c ∈ cc -> 0 <= c < len record_list) ->
  (forall w f, fs !! cnsns_fn cc_idx w f = None) ->
  exists n b_min record_list' (fs' : FS),
    n_windows bpos_list epos_list o = Ok n
    /\ np_min bpos_list = Ok b_min
    /\ run_spoa_in_cc fs record_list cc_idx cc strand_list bpos_list epos_list o
       = Ok (fs', record_list')
    /\ n_win fs' cc_idx
       = len (filter
                (fun w =>
                   poa_in_content (READS_FMT o)
                     (spec_fragments ((W_LEN o - W_OVL_LEN o) * w)
                        ((W_LEN o - W_OVL_LEN o) * w + W_LEN o)
                        record_list' cc
                        ((fun b => b - b_min) <$> bpos_list)
                        ((fun e => e - b_min) <$> epos_list)) <> [])
                (xrange 0 n)).
Proof.
  intros Hproc Hb Hcb Hbe Hsc Hrange Hfresh.
  destruct (run_spoa_in_cc_pool fs record_list cc_idx cc strand_list
              bpos_list epos_list o Hproc Hb Hcb Hbe Hsc Hrange)
    as (n & b_min & record_list' & fs' & Hn & Hmin & _ & Hrun & Hfiles & Hframe).
  exists n, b_min, record_list', fs'.
  split; [exact Hn|]. split; [exact Hmin|]. split; [exact Hrun|].
  apply (n_win_of_windows fs' cc_idx (READS_FMT o)).
  { apply NoDup_filter, NoDup_xrange. }
  intros p. rewrite elem_of_dom. setoid_rewrite list_elem_of_filter.
  setoid_rewrite elem_of_xrange. split.
  - intros [[c Hp] Hcn]. destruct p as [| c' w f | | |]; try done.
    simpl in Hcn. apply bool_decide_eq_true in Hcn as ->.
    destruct (decide (f = READS_FMT o /\ 0 <= w < n)) as [[-> Hw]|Hout].
    + exists w. split; [|done]. split; [|done].
      destruct (Hfiles w Hw) as [_ Hcnsns]. cbv zeta in Hcnsns.
      rewrite Hp in Hcnsns. intros Hempty. rewrite Hempty in Hcnsns.
      rewrite bool_decide_eq_true_2 in Hcnsns by done.
      by rewrite Hfresh in Hcnsns.
    + rewrite Hframe, Hfresh in Hp; [done|].
      intros w' Hw'. split; [done|]. intros [= -> ->]. apply Hout. done.
  - intros (w & [Hcontent Hw] & ->). split; [|simpl; by apply bool_decide_eq_true].
    destruct (Hfiles w Hw) as [_ Hcnsns]. cbv zeta in Hcnsns.
    rewrite bool_decide_eq_false_2 in Hcnsns by done. eauto.
Qed.


(** The stitching phase iterates over [n_win], the number of output
    files of the component that the listing of its directory shows;
    when exactly the windows [0 .. n-1] have an output file, and so
    when each of the [n] windows of the partitioner produced one, this
    is [n]. *)
Theorem n_win_counts_output_files (fs : FS) (cc_idx : Z) (o : opts) :
  n_win fs cc_idx
  = Z.of_nat (size (filter (fun p => is_cnsns_of cc_idx p = true) (dom fs)))
  /\ merge_windows_in_cc fs cc_idx o
     = merge_windows_from (n_win fs cc_idx) fs cc_idx o
  /\ forall n fmt,
       0 <= n ->
       (forall p, p ∈ dom fs -> is_cnsns_of cc_idx p = true ->
                  exists w, 0 <= w < n /\ p = cnsns_fn cc_idx w fmt) ->
       (forall w, 0 <= w < n -> cnsns_fn cc_idx w fmt ∈ dom fs) ->
       n_win fs cc_idx = n.
Proof.
  split; [reflexivity|]. split; [reflexivity|].
  intros n fmt. apply n_win_complete.
Qed.

End WindowCount.

(** The partitioner counts three windows for the two reads on [0,100)
    and [50,210), the third window gets no piece of twenty bases and no
    output file, and the stitching phase counts two windows. *)
Lemma window_count_counterexample :
  let o := sample_opts 2 0 0 in
  n_windows short_end_bpos short_end_epos o = Ok 3
  /\ exists fs' record_list',
       run_spoa_in_cc (E := echo) ∅ short_end_reads 0 short_end_cc
         short_end_strands short_end_bpos short_end_epos o
       = Ok (fs', record_list')
       /\ n_win fs' 0 = 2
       /\ n_win fs' 0 <> 3.
Proof.
  intros o. split; [reflexivity|].
  assert (Hcount :
    (st ← run_spoa_in_cc (E := echo) ∅ short_end_reads 0 short_end_cc
            short_end_strands short_end_bpos short_end_epos o;
     Ok (n_win st.1 0)) = Ok 2) by (vm_compute; reflexivity).
  destruct (run_spoa_in_cc _ _ _ _ _ _ _ _) as [[fs' record_list']|e];
    [|discriminate Hcount].
  rewrite bind_Ok in Hcount. injection Hcount as Hcount. simpl in Hcount.
  exists fs', record_list'. split; [reflexivity|]. split; [exact Hcount|].
  rewrite Hcount. discriminate.
Qed.

(** C7. The count of the stitching phase is below the count of the
    partitioner, and windows with an output are left out.  For two
    reads on [0,300) and [500,790) and windows of length 100 the
    partitioner counts eight windows; no read meets the windows 3 and
    4, the production stage leaves the six outputs of the windows 0, 1,
    2, 5, 6 and 7, the listing counts six windows, and
    [merge_windows_in_cc] runs the transitions of the windows 0 to 5
    only: the outputs of the windows 6 and 7 are never stitched. *)
Theorem listing_undercounts_windows :
  let o := sample_opts 2 0 0 in
  n_windows gap_bpos gap_epos o = Ok 8
  /\ exists (fs' : FS) record_list',
       run_spoa_in_cc (E := echo) ∅ gap_reads 0 gap_cc gap_strands
         gap_bpos gap_epos o
       = Ok (fs', record_list')
       /\ n_win fs' 0 = 6
       /\ (fun w => missing_or_empty fs' (cnsns_fn 0 w fasta)) <$> xrange 0 8
          = [false; false; false; true; true; false; false; false]
       /\ merge_windows_in_cc (E := echo) fs' 0 o
          = (whole_cons ← get_consensus fs' (cnsns_fn 0 0 fasta) 0;
             st ← for_each (schedule 6 o)
                    (fun wm => merge_step (E := echo) 0 o wm.2 wm.1)
                    (fs', whole_cons);
             Ok (<[consensus_fn 0 := consensus_record 0 st.2]> st.1, st.2))
       /\ (schedule 6 o).*1 = [0; 1; 2; 3; 4; 5].
Proof.
  intros o. split; [reflexivity|].
  assert (Hcount :
    (st ← run_spoa_in_cc (E := echo) ∅ gap_reads 0 gap_cc gap_strands
            gap_bpos gap_epos o;
     Ok (n_win st.1 0,
         (fun w => missing_or_empty st.1 (cnsns_fn 0 w fasta)) <$> xrange 0 8))
    = Ok (6, [false; false; false; true; true; false; false; false]))
    by (vm_compute; reflexivity).
  destruct (run_spoa_in_cc _ _ _ _ _ _ _ _) as [[fs' record_list']|e];
    [|discriminate Hcount].
  rewrite bind_Ok in Hcount.
  pose proof (f_equal (fun r => match r with Ok nl => nl.1 | Raise _ => 0 end)
                Hcount) as Hn.
  pose proof (f_equal (fun r => match r with Ok nl => nl.2 | Raise _ => [] end)
                Hcount) as Hfiles.
  cbv beta iota in Hn, Hfiles. cbn [fst snd] in Hn, Hfiles.
  exists fs', record_list'. split; [reflexivity|]. split; [exact Hn|].
  split; [exact Hfiles|]. split; [|reflexivity].
  unfold merge_windows_in_cc. rewrite Hn.
  apply (merge_windows_from_schedule (E := echo)).
Qed.

(** C2. The margins follow the count of the listing, not the windows
    of the component.  For one read on [0,910), windows of length 100
    and [TRIM_MARGIN = 50] the partitioner counts ten windows, and
    window 6 is not among the last three of them: its margin is to be
    50.  The tenth window gets no piece of twenty bases and no output,
    the listing counts nine windows, and [merge_windows_in_cc] runs the
    transitions of [schedule 9]: window 6, which has an output, is
    passed through the transition with the margin 0, and with no
    other. *)
Theorem trim_margin_follows_listing :
  let o := sample_opts 2 50 0 in
  n_windows long_read_bpos long_read_epos o = Ok 10
  /\ trimMargin 10 o 6 = 50
  /\ exists (fs' : FS) record_list',
       run_spoa_in_cc (E := echo) ∅ long_read_reads 0 long_read_cc
         long_read_strands long_read_bpos long_read_epos o
       = Ok (fs', record_list')
       /\ n_win fs' 0 = 9
       /\ missing_or_empty fs' (cnsns_fn 0 6 fasta) = false
       /\ merge_windows_in_cc (E := echo) fs' 0 o
          = (whole_cons ← get_consensus fs' (cnsns_fn 0 0 fasta) 50;
             st ← for_each (schedule 9 o)
                    (fun wm => merge_step (E := echo) 0 o wm.2 wm.1)
                    (fs', whole_cons);
             Ok (<[consensus_fn 0 := consensus_record 0 st.2]> st.1, st.2))
       /\ schedule 9 o
          = [(0, 0); (1, 0); (2, 0); (3, 50); (4, 50); (5, 50);
             (6, 0); (7, 0); (8, 0)].
Proof.
  intros o. split; [reflexivity|]. split; [reflexivity|].
  assert (Hcount :
    (st ← run_spoa_in_cc (E := echo) ∅ long_read_reads 0 long_read_cc
            long_read_strands long_read_bpos long_read_epos o;
     Ok (n_win st.1 0, missing_or_empty st.1 (cnsns_fn 0 6 fasta)))
    = Ok (9, false)) by (vm_compute; reflexivity).
  destruct (run_spoa_in_cc _ _ _ _ _ _ _ _) as [[fs' record_list']|e];
    [|discriminate Hcount].
  rewrite bind_Ok in Hcount. injection Hcount as Hn Hfile.
  cbn [fst] in Hn, Hfile.
  exists fs', record_list'. split; [reflexivity|]. split; [exact Hn|].
  split; [exact Hfile|]. split; [|reflexivity].
  unfold merge_windows_in_cc. rewrite Hn.
  apply (merge_windows_from_schedule (E := echo)).
Qed.

Lemma n_win_counts_output_files_witness :
  0 <= 6
  /\ (forall w, 0 <= w < 6 -> cnsns_fn 0 w fasta ∈ dom six_windows)
  /\ n_win six_windows 0 = 6.
Proof.
  assert (Hn : 0 <= 6) by lia.
  assert (Honly : forall p, p ∈ dom six_windows -> is_cnsns_of 0 p = true ->
                    exists w, 0 <= w < 6 /\ p = cnsns_fn 0 w fasta).
  { intros p Hp _. unfold six_windows in Hp.
    rewrite dom_list_to_map_L in Hp. apply elem_of_list_to_set in Hp.
    apply list_elem_of_In in Hp. vm_compute in Hp.
    repeat (destruct Hp as [<-|Hp]; [eexists; split; [|reflexivity]; lia|]).
    destruct Hp. }
  assert (Hall : forall w, 0 <= w < 6 -> cnsns_fn 0 w fasta ∈ dom six_windows).
  { intros w Hw. apply elem_of_dom.
    assert (Hcases : w = 0 \/ w = 1 \/ w = 2 \/ w = 3 \/ w = 4 \/ w = 5) by lia.
    destruct Hcases as [->|[->|[->|[->|[->| ->]]]]];
      eexists; vm_compute; reflexivity. }
  split; [exact Hn|]. split; [exact Hall|].
  exact (proj2 (proj2 (n_win_counts_output_files (E := echo) six_windows 0
                         (sample_opts 2 0 0)))
           6 fasta Hn Honly Hall).
Defined.

(** ** Empty components *)

(** C9 fails on both empty inputs.  A component without reads makes
    [run_spoa_in_cc] raise; a component whose only read has ten bases
    gets no output file for window 0, and [merge_windows_in_cc] raises
    when it opens it. *)
Theorem empty_component_raises :
  let o := sample_opts 2 0 0 in
  run_spoa_in_cc (E := echo) ∅ [] 0 [] [] [] [] o = Raise ValueError
  /\ exists fs' record_list',
       run_spoa_in_cc (E := echo) ∅ [read_of_length 10] 0 [0] [true] [0] [10] o
       = Ok (fs', record_list')
       /\ fs' !! cnsns_fn 0 0 fasta = None
       /\ merge_windows_in_cc (E := echo) fs' 0 o = Raise IOError.
Proof.
  intros o. split; [reflexivity|].
  assert (Hfile :
    (st ← run_spoa_in_cc (E := echo) ∅ [read_of_length 10] 0 [0] [true]
            [0] [10] o;
     Ok (st.1 !! cnsns_fn 0 0 fasta)) = Ok None) by (vm_compute; reflexivity).
  destruct (run_spoa_in_cc _ _ _ _ _ _ _ _) as [[fs' record_list']|e];
    [|discriminate Hfile].
  rewrite bind_Ok in Hfile. injection Hfile as Hfile. simpl in Hfile.
  exists fs', record_list'. split; [reflexivity|]. split; [exact Hfile|].
  apply merge_windows_in_cc_no_window_0. exact Hfile.
Qed.

(** * Further properties of the code *)

(** ** Lines of a file *)

Lemma is_newline_true c : is_newline c = true <-> c = newline.
Proof. unfold is_newline. apply Ascii.eqb_eq. Qed.

Lemma is_newline_false c : is_newline c = false <-> c <> newline.
Proof. unfold is_newline. apply Ascii.eqb_neq. Qed.

Lemma readlines_newline_app s t :
  readlines (s ++ newline :: t) = readlines (s ++ [newline]) ++ readlines t.
Proof.
  induction s as [|c s IH]; [reflexivity|].
  cbn [app readlines]. destruct (is_newline c).
  - rewrite IH. reflexivity.
  - rewrite IH. destruct (readlines (s ++ [newline])) as [|l ls] eqn:Hl.
    + apply readlines_nil_iff in Hl. by destruct s.
    + reflexivity.
Qed.

Lemma readlines_one_line s :
  s <> [] -> newline ∉ s -> readlines s = [s].
Proof.
  induction s as [|c s IH]; [done|]. intros _ Hnl.
  apply not_elem_of_cons in Hnl as [Hc Hs].
  cbn [readlines]. rewrite (proj2 (is_newline_false c)) by done.
  destruct s as [|c' s]; [reflexivity|].
  rewrite IH; [reflexivity|done|exact Hs].
Qed.

Lemma readlines_terminated_line s :
  newline ∉ s -> readlines (s ++ [newline]) = [s ++ [newline]].
Proof.
  induction s as [|c s IH]; [reflexivity|]. intros Hnl.
  apply not_elem_of_cons in Hnl as [Hc Hs].
  cbn [app readlines]. rewrite (proj2 (is_newline_false c)) by done.
  rewrite (IH Hs). reflexivity.
Qed.

(** The lines put together are the content. *)
Lemma readlines_concat s : mjoin (readlines s) = s.
Proof.
  induction s as [|c s IH]; [reflexivity|].
  cbn [readlines]. destruct (is_newline c).
  - change (mjoin ([c] :: readlines s)) with (c :: mjoin (readlines s)).
    by rewrite IH.
  - destruct (readlines s) as [|l ls]; rewrite <- IH; reflexivity.
Qed.

Lemma last_line_app ls l : last_line (ls ++ [l]) = l.
Proof. unfold last_line. apply last_last. Qed.

Lemma slice_all {A} (s : list A) : slice s 0 (len s) = s.
Proof.
  change (slice s 0 (len s)) with (slice_from s 0).
  rewrite slice_from_drop by lia. reflexivity.
Qed.

Lemma readlines_after_lines pre s :
  ends_lines pre -> readlines (pre ++ s) = readlines pre ++ readlines s.
Proof.
  intros [->|[p ->]]; [reflexivity|].
  rewrite <- app_assoc. apply readlines_newline_app.
Qed.

Lemma consensus_of_terminated pre c t :
  ends_lines pre -> newline ∉ c ->
  consensus_of (pre ++ c ++ [newline]) t = slice c t (len c - t).
Proof.
  intros Hpre Hc. unfold consensus_of.
  rewrite (readlines_after_lines pre (c ++ [newline]) Hpre).
  rewrite (readlines_terminated_line c Hc).
  rewrite bool_decide_eq_false_2.
  - rewrite last_line_app, slice_to_minus_1, removelast_last. reflexivity.
  - rewrite len_zero_iff. by destruct (readlines pre).
Qed.

Lemma consensus_of_unterminated pre c t :
  ends_lines pre -> c <> [] -> newline ∉ c ->
  consensus_of (pre ++ c) t
  = slice (removelast c) t (len (removelast c) - t).
Proof.
  intros Hpre Hne Hc. unfold consensus_of.
  rewrite (readlines_after_lines pre c Hpre).
  rewrite (readlines_one_line c Hne Hc).
  rewrite bool_decide_eq_false_2.
  - rewrite last_line_app, slice_to_minus_1. reflexivity.
  - rewrite len_zero_iff. by destruct (readlines pre).
Qed.

Section MergeFiles.
Context {E : External}.

(** X3. Whenever [run_spoa_and_consensus] returns on an input that is
    not empty, with an output name that differs from the input name,
    neither of the two files exists afterwards and every other file
    is as it was. *)
Theorem run_spoa_and_consensus_cleans_up (fs fs' : FS) (in_fn out_fn : path)
    (c : ascii) (content r : list ascii) :
  fs !! in_fn = Some (c :: content) -> in_fn <> out_fn ->
  run_spoa_and_consensus fs in_fn out_fn = Ok (fs', r) ->
  fs' !! in_fn = None /\ fs' !! out_fn = None
  /\ forall p, p <> in_fn -> p <> out_fn -> fs' !! p = fs !! p.
Proof.
  intros Hin Hne Hrun.
  rewrite (run_spoa_and_consensus_runs fs in_fn out_fn c content Hin Hne) in Hrun.
  injection Hrun as <- _. split; [|split].
  - rewrite lookup_delete_ne by done. apply lookup_delete_eq.
  - apply lookup_delete_eq.
  - intros p Hp1 Hp2. by rewrite !lookup_delete_ne, lookup_insert_ne.
Qed.

Lemma add_next_window_frame (fs : FS) (temp_fn : path) (w_idx cc_idx : Z)
    (whole_cons : list ascii) (o : opts) (trim_margin : Z) :
  temp_fn <> poa_out_cons_fn cc_idx w_idx ->
  exists (fs' : FS) r,
    add_next_window fs temp_fn w_idx cc_idx whole_cons o trim_margin = Ok (fs', r)
    /\ (forall p, p <> temp_fn -> p <> poa_out_cons_fn cc_idx w_idx ->
                  fs' !! p = fs !! p)
    /\ (missing_or_empty fs (cnsns_fn cc_idx w_idx (READS_FMT o)) = false ->
        fs' !! temp_fn = None /\ fs' !! poa_out_cons_fn cc_idx w_idx = None).
Proof.
  intros Hne.
  destruct (missing_or_empty fs (cnsns_fn cc_idx w_idx (READS_FMT o))) eqn:Hm.
  - exists fs, whole_cons. split; [by apply add_next_window_skips|done].
  - apply missing_or_empty_false in Hm as (c & content & Hfile).
    eexists _, _. split; [by eapply add_next_window_runs|]. split.
    + intros p Hp1 Hp2. by rewrite !lookup_delete_ne, !lookup_insert_ne.
    + intros _. split.
      * rewrite lookup_delete_ne by done. apply lookup_delete_eq.
      * apply lookup_delete_eq.
Qed.

(** X4. Whenever [add_next_window] returns, with a temporary name that
    differs from the name of the engine output, it has changed no file
    but these two, and when the window has an output it leaves neither
    of them behind. *)
Theorem add_next_window_touches_two_files (fs fs' : FS) (temp_fn : path)
    (w_idx cc_idx : Z) (whole_cons r : list ascii) (o : opts) (trim_margin : Z) :
  temp_fn <> poa_out_cons_fn cc_idx w_idx ->
  add_next_window fs temp_fn w_idx cc_idx whole_cons o trim_margin = Ok (fs', r) ->
  (forall p, p <> temp_fn -> p <> poa_out_cons_fn cc_idx w_idx ->
             fs' !! p = fs !! p)
  /\ (missing_or_empty fs (cnsns_fn cc_idx w_idx (READS_FMT o)) = false ->
      fs' !! temp_fn = None /\ fs' !! poa_out_cons_fn cc_idx w_idx = None).
Proof.
  intros Hne Hrun.
  destruct (add_next_window_frame fs temp_fn w_idx cc_idx whole_cons o
              trim_margin Hne) as (fs1 & r1 & Hrun1 & Hframe).
  rewrite Hrun1 in Hrun. injection Hrun as <- _. exact Hframe.
Qed.

(** A loop of transitions ends, and leaves the files that are not
    scratch files of the component as they were. *)
Lemma merge_loop_returns cc_idx o trim_margin (ws : list Z)
    (st : FS * list ascii) :
  exists st' : FS * list ascii,
    for_each ws (merge_step cc_idx o trim_margin) st = Ok st'
    /\ forall p, merge_scratch cc_idx p = false -> st'.1 !! p = st.1 !! p.
Proof.
  revert st. induction ws as [|w ws IH]; intros st.
  - exists st. done.
  - destruct (add_next_window_frame st.1 (poa_in_cons_fn cc_idx w) w cc_idx
                st.2 o trim_margin) as (fs1 & r & Hstep & Hframe & _); [done|].
    destruct (IH (fs1, r)) as (st' & Hloop & Hrest).
    exists st'. split.
    + cbn [for_each].
      change (merge_step cc_idx o trim_margin w st)
        with (add_next_window st.1 (poa_in_cons_fn cc_idx w) w cc_idx st.2 o
                trim_margin).
      rewrite Hstep, bind_Ok. exact Hloop.
    + intros p Hp. rewrite Hrest by done. simpl. apply Hframe.
      * intros ->. simpl in Hp. by rewrite bool_decide_eq_true_2 in Hp.
      * intros ->. simpl in Hp. by rewrite bool_decide_eq_true_2 in Hp.
Qed.

(** With an engine call that always leaves its output. *)
Lemma merge_windows_in_cc_outcome (fs : FS) (cc_idx : Z) (o : opts) :
  match fs !! cnsns_fn cc_idx 0 (READS_FMT o) with
  | None => merge_windows_in_cc fs cc_idx o = Raise IOError
  | Some _ =>
      exists (fs' : FS) whole_cons,
        merge_windows_in_cc fs cc_idx o = Ok (fs', whole_cons)
        /\ fs' !! consensus_fn cc_idx = Some (consensus_record cc_idx whole_cons)
        /\ forall p, merge_scratch cc_idx p = false -> fs' !! p = fs !! p
  end.
Proof.
  destruct (fs !! cnsns_fn cc_idx 0 (READS_FMT o)) as [content|] eqn:Hfile.
  - unfold merge_windows_in_cc, merge_windows_from, get_consensus.
    rewrite Hfile, bind_Ok.
    destruct (merge_loop_returns cc_idx o 0 (xrange 0 3)
                (fs, consensus_of content (TRIM_MARGIN o)))
      as (st1 & -> & H1). rewrite bind_Ok.
    destruct (merge_loop_returns cc_idx o (TRIM_MARGIN o)
                (xrange 3 (n_win fs cc_idx - 3)) st1)
      as (st2 & -> & H2). rewrite bind_Ok.
    destruct (merge_loop_returns cc_idx o 0
                (xrange (n_win fs cc_idx - 3) (n_win fs cc_idx)) st2)
      as (st3 & -> & H3). rewrite bind_Ok.
    eexists _, _. split; [reflexivity|]. split; [apply lookup_insert_eq|].
    intros p Hp. rewrite lookup_insert_ne.
    + by rewrite H3, H2, H1.
    + intros <-. simpl in Hp. by rewrite bool_decide_eq_true_2 in Hp.
  - by apply merge_windows_in_cc_no_window_0.
Qed.

(** X7. Whenever [merge_windows_in_cc] returns, the output of window 0
    existed, the backup file holds the record of the consensus that is
    returned, and every file that is not a temporary file or the backup
    of the component is as it was: the window inputs and outputs are
    never modified. *)
Theorem merge_windows_in_cc_keeps_windows (fs fs' : FS) (cc_idx : Z)
    (o : opts) (whole_cons : list ascii) :
  merge_windows_in_cc fs cc_idx o = Ok (fs', whole_cons) ->
  is_Some (fs !! cnsns_fn cc_idx 0 (READS_FMT o))
  /\ fs' !! consensus_fn cc_idx = Some (consensus_record cc_idx whole_cons)
  /\ forall p, merge_scratch cc_idx p = false -> fs' !! p = fs !! p.
Proof.
  intros Hrun. pose proof (merge_windows_in_cc_outcome fs cc_idx o) as Hout.
  destruct (fs !! cnsns_fn cc_idx 0 (READS_FMT o)) as [content|].
  - destruct Hout as (fs1 & w1 & Hrun1 & Hrec & Hframe).
    rewrite Hrun1 in Hrun. injection Hrun as <- <-. eauto.
  - rewrite Hout in Hrun. discriminate Hrun.
Qed.

End MergeFiles.

(** X6. The tail of the running consensus that [add_next_window] hands
    back to the engine has [min(L, max(0, N + MERGE_MARGIN))]
    characters, for a running consensus of [L] characters and a next
    sequence of [N]: the cost of a transition does not grow with the
    contig. *)
Theorem seam_tail_length (whole_cons next_win_seq : list ascii) (o : opts) :
  len (slice_from whole_cons (kept_len whole_cons next_win_seq o))
  = Z.min (len whole_cons) (Z.max 0 (len next_win_seq + MERGE_MARGIN o)).
Proof.
  pose proof (len_nonneg whole_cons). pose proof (len_nonneg next_win_seq).
  rewrite slice_from_drop by (unfold kept_len; lia).
  unfold kept_len, len in *. rewrite length_drop. lia.
Qed.

(** ** Small components *)

Lemma schedule_length n o :
  Z.of_nat (length (schedule n o)) = Z.max 6 n.
Proof.
  unfold schedule. rewrite !length_app, !length_fmap, !length_xrange. lia.
Qed.

Section Small.
Context {E : External}.

(** X8. [merge_windows_in_cc] makes [max(6, n_win)] transitions, those of
    [schedule].  With three to five windows some window goes through
    the transition twice; with fewer than three, the negative index
    [n_win - 3] is used. *)
Theorem schedule_small (fs : FS) (cc_idx : Z) (o : opts) :
  let n := n_win fs cc_idx in
  merge_windows_in_cc fs cc_idx o =
    (whole_cons ← get_consensus fs (cnsns_fn cc_idx 0 (READS_FMT o)) (TRIM_MARGIN o);
     st ← for_each (schedule n o)
            (fun wm => merge_step cc_idx o wm.2 wm.1) (fs, whole_cons);
     Ok (<[consensus_fn cc_idx := consensus_record cc_idx st.2]> st.1, st.2))
  /\ Z.of_nat (length (schedule n o)) = Z.max 6 n
  /\ (3 <= n < 6 -> ~ NoDup (schedule n o).*1)
  /\ (n < 3 -> n - 3 ∈ (schedule n o).*1 /\ n - 3 < 0).
Proof.
  intros n. split; [apply merge_windows_from_schedule|].
  split; [apply schedule_length|]. split.
  - intros Hn Hnodup.
    assert (Hlen : length (schedule n o).*1 = 6%nat).
    { rewrite length_fmap. pose proof (schedule_length n o). lia. }
    assert (Hsub : forall w, w ∈ (schedule n o).*1 -> w ∈ xrange 0 n).
    { intros w Hw. apply list_elem_of_fmap in Hw as ([w' m] & -> & Hin).
      apply elem_of_schedule in Hin. apply elem_of_xrange. simpl. lia. }
    pose proof (submseteq_length _ _ (NoDup_submseteq _ _ Hnodup Hsub)) as Hle.
    rewrite Hlen, length_xrange in Hle. lia.
  - intros Hn. split; [|lia].
    apply list_elem_of_fmap. exists (n - 3, 0). split; [reflexivity|].
    apply elem_of_schedule. right. right. split; [lia|reflexivity].
Qed.

End Small.

(** ** What the stitching reads *)

Section Reads.
Context {E : External}.

(** Two file systems with the same output for window [w_idx] give the
    same transition, and its two results still agree on every window
    output. *)
Lemma add_next_window_same_output (fs1 fs2 : FS) temp_fn w_idx cc_idx
    whole_cons o trim_margin :
  temp_fn <> poa_out_cons_fn cc_idx w_idx ->
  (forall c w f, temp_fn <> cnsns_fn c w f) ->
  fs1 !! cnsns_fn cc_idx w_idx (READS_FMT o)
  = fs2 !! cnsns_fn cc_idx w_idx (READS_FMT o) ->
  exists (fs1' fs2' : FS) r,
    add_next_window fs1 temp_fn w_idx cc_idx whole_cons o trim_margin
    = Ok (fs1', r)
    /\ add_next_window fs2 temp_fn w_idx cc_idx whole_cons o trim_margin
       = Ok (fs2', r)
    /\ (forall c w f, fs1' !! cnsns_fn c w f = fs1 !! cnsns_fn c w f)
    /\ (forall c w f, fs2' !! cnsns_fn c w f = fs2 !! cnsns_fn c w f).
Proof.
  intros Hne Htemp Hsame.
  destruct (missing_or_empty fs1 (cnsns_fn cc_idx w_idx (READS_FMT o))) eqn:Hm.
  - exists fs1, fs2, whole_cons.
    split; [by apply add_next_window_skips|].
    split; [|done]. apply add_next_window_skips.
    unfold missing_or_empty in *. by rewrite <- Hsame.
  - apply missing_or_empty_false in Hm as (c & content & Hfile).
    eexists _, _, _.
    split; [by eapply add_next_window_runs|].
    split; [eapply add_next_window_runs; [by rewrite <- Hsame|done]|].
    split; intros c' w' f';
      by rewrite !lookup_delete_ne, !lookup_insert_ne.
Qed.

Lemma merge_loop_same_outputs cc_idx o trim_margin (ws : list Z)
    (fs1 fs2 : FS) whole_cons :
  (forall w, w ∈ ws ->
     fs1 !! cnsns_fn cc_idx w (READS_FMT o)
     = fs2 !! cnsns_fn cc_idx w (READS_FMT o)) ->
  exists (fs1' fs2' : FS) r,
    for_each ws (merge_step cc_idx o trim_margin) (fs1, whole_cons)
    = Ok (fs1', r)
    /\ for_each ws (merge_step cc_idx o trim_margin) (fs2, whole_cons)
       = Ok (fs2', r)
    /\ (forall c w f, fs1' !! cnsns_fn c w f = fs1 !! cnsns_fn c w f)
    /\ (forall c w f, fs2' !! cnsns_fn c w f = fs2 !! cnsns_fn c w f).
Proof.
  revert fs1 fs2 whole_cons.
  induction ws as [|w ws IH]; intros fs1 fs2 whole_cons Hsame.
  - exists fs1, fs2, whole_cons. done.
  - destruct (add_next_window_same_output fs1 fs2 (poa_in_cons_fn cc_idx w)
                w cc_idx whole_cons o trim_margin)
      as (fs1a & fs2a & r & Hs1 & Hs2 & Hf1 & Hf2); [done|done| |].
    { apply Hsame. by left. }
    destruct (IH fs1a fs2a r) as (fs1' & fs2' & r' & Hl1 & Hl2 & Hg1 & Hg2).
    { intros w' Hw'. rewrite Hf1, Hf2. apply Hsame. by right. }
    exists fs1', fs2', r'. split; [|split; [|split]].
    + cbn [for_each].
      change (merge_step cc_idx o trim_margin w (fs1, whole_cons))
        with (add_next_window fs1 (poa_in_cons_fn cc_idx w) w cc_idx
                whole_cons o trim_margin).
      rewrite Hs1, bind_Ok. exact Hl1.
    + cbn [for_each].
      change (merge_step cc_idx o trim_margin w (fs2, whole_cons))
        with (add_next_window fs2 (poa_in_cons_fn cc_idx w) w cc_idx
                whole_cons o trim_margin).
      rewrite Hs2, bind_Ok. exact Hl2.
    + intros c w' f. by rewrite Hg1, Hf1.
    + intros c w' f. by rewrite Hg2, Hf2.
Qed.

Lemma merge_same_outputs (fs1 fs2 : FS) (cc_idx : Z) (o : opts) :
  n_win fs1 cc_idx = n_win fs2 cc_idx ->
  (forall w m, (w, m) ∈ schedule (n_win fs1 cc_idx) o ->
     fs1 !! cnsns_fn cc_idx w (READS_FMT o)
     = fs2 !! cnsns_fn cc_idx w (READS_FMT o)) ->
  returned (merge_windows_in_cc fs1 cc_idx o)
  = returned (merge_windows_in_cc fs2 cc_idx o).
Proof.
  intros Hn Hsame. unfold merge_windows_in_cc. rewrite <- Hn.
  set (n := n_win fs1 cc_idx) in *.
  assert (H0 : fs1 !! cnsns_fn cc_idx 0 (READS_FMT o)
               = fs2 !! cnsns_fn cc_idx 0 (READS_FMT o)).
  { apply (Hsame 0 0), elem_of_schedule. left. lia. }
  unfold merge_windows_from, get_consensus. rewrite <- H0.
  destruct (fs1 !! cnsns_fn cc_idx 0 (READS_FMT o)) as [content|];
    [|reflexivity].
  rewrite !bind_Ok.
  destruct (merge_loop_same_outputs cc_idx o 0 (xrange 0 3) fs1 fs2
              (consensus_of content (TRIM_MARGIN o)))
    as (fa1 & fa2 & ra & -> & -> & Ha1 & Ha2).
  { intros w Hw. apply (Hsame w 0), elem_of_schedule.
    apply elem_of_xrange in Hw. left. lia. }
  rewrite !bind_Ok.
  destruct (merge_loop_same_outputs cc_idx o (TRIM_MARGIN o)
              (xrange 3 (n - 3)) fa1 fa2 ra)
    as (fb1 & fb2 & rb & -> & -> & Hb1 & Hb2).
  { intros w Hw. rewrite Ha1, Ha2.
    apply (Hsame w (TRIM_MARGIN o)), elem_of_schedule.
    apply elem_of_xrange in Hw. right. left. lia. }
  rewrite !bind_Ok.
  destruct (merge_loop_same_outputs cc_idx o 0 (xrange (n - 3) n) fb1 fb2 rb)
    as (fc1 & fc2 & rc & -> & -> & _ & _).
  { intros w Hw. rewrite Hb1, Hb2, Ha1, Ha2.
    apply (Hsame w 0), elem_of_schedule.
    apply elem_of_xrange in Hw. right. right. lia. }
  reflexivity.
Qed.

(** X9. The consensus that [merge_windows_in_cc] returns depends on the
    files through the window count and the outputs of the windows on
    its schedule only. *)
Theorem merge_reads_scheduled_outputs (fs1 fs2 : FS) (cc_idx : Z) (o : opts) :
  n_win fs1 cc_idx = n_win fs2 cc_idx ->
  (forall w m, (w, m) ∈ schedule (n_win fs1 cc_idx) o ->
     fs1 !! cnsns_fn cc_idx w (READS_FMT o)
     = fs2 !! cnsns_fn cc_idx w (READS_FMT o)) ->
  returned (merge_windows_in_cc fs1 cc_idx o)
  = returned (merge_windows_in_cc fs2 cc_idx o).
Proof. apply merge_same_outputs. Qed.

End Reads.

(** ** Strand normalisation *)

Lemma lookup_xrange a b (i : nat) :
  (i < Z.to_nat (b - a))%nat -> xrange a b !! i = Some (a + Z.of_nat i).
Proof.
  intros Hi. unfold xrange. rewrite list_lookup_fmap, lookup_seq_lt by done.
  reflexivity.
Qed.

Lemma elem_of_enumerate_lookup {A} (l : list A) idx x :
  (idx, x) ∈ enumerate l <-> 0 <= idx /\ l !! Z.to_nat idx = Some x.
Proof.
  unfold enumerate. rewrite elem_of_lookup_zip_with. split.
  - intros (i & idx' & x' & [= -> ->] & Hidx & Hx).
    pose proof (lookup_lt_Some _ _ _ Hidx) as Hlt.
    rewrite length_xrange in Hlt. rewrite lookup_xrange in Hidx by done.
    injection Hidx as <-. rewrite Z.add_0_l, Nat2Z.id. split; [lia|done].
  - intros [Hidx Hx]. exists (Z.to_nat idx), idx, x.
    split; [done|]. split; [|done].
    pose proof (lookup_lt_Some _ _ _ Hx) as Hlt.
    rewrite lookup_xrange by (unfold len; lia). f_equal. lia.
Qed.

Section Strands.
Context {E : External}.

Lemma reverse_loop_ids (strand_list : list bool) (pairs : list (Z * Z))
    (record_list : list record) :
  (forall idx c, (idx, c) ∈ pairs ->
                 0 <= idx < len strand_list /\ 0 <= c < len record_list) ->
  exists record_list',
    for_each pairs
      (fun '(idx, read_idx) record_list =>
         strand ← py_get strand_list idx;
         if negb strand then
           r ← py_get record_list read_idx;
           let read_id := rec_id r in
           let rc := reverse_complement r in
           py_set record_list read_idx
             {| rec_id := read_id; rec_seq := rec_seq rc |}
         else Ok record_list)
      record_list
    = Ok record_list'
    /\ length record_list' = length record_list
    /\ (forall i : nat, rec_id <$> record_list' !! i = rec_id <$> record_list !! i)
    /\ (forall i : nat,
          (forall idx, (idx, Z.of_nat i) ∈ pairs ->
                       strand_list !! Z.to_nat idx = Some true) ->
          record_list' !! i = record_list !! i).
Proof.
  revert record_list.
  induction pairs as [|[idx c] pairs IH]; intros record_list Hpairs.
  - exists record_list. done.
  - destruct (Hpairs idx c) as [Hidx Hc]; [by left|].
    cbn [for_each].
    destruct (py_get_in_range strand_list idx Hidx) as (strand & Hstrand & ->).
    rewrite bind_Ok.
    destruct strand; cbn [negb].
    + rewrite bind_Ok.
      destruct (IH record_list) as (rl' & Hrun & Hlen & Hids & Hsame).
      { intros idx' c' Hin. apply Hpairs. by right. }
      exists rl'. split; [done|]. split; [done|]. split; [done|].
      intros i Hi. apply Hsame. intros idx' Hin. apply Hi. by right.
    + destruct (py_get_in_range record_list c Hc) as (r & Hr & ->).
      rewrite bind_Ok. cbv zeta. rewrite py_set_in_range by done.
      rewrite bind_Ok.
      set (x := {| rec_id := rec_id r; rec_seq := rec_seq (reverse_complement r) |}).
      destruct (IH (<[Z.to_nat c := x]> record_list))
        as (rl' & Hrun & Hlen & Hids & Hsame).
      { intros idx' c' Hin. unfold len. rewrite length_insert.
        apply Hpairs. by right. }
      exists rl'. split; [done|]. split; [by rewrite Hlen, length_insert|].
      split.
      * intros i. rewrite Hids.
        destruct (decide (i = Z.to_nat c)) as [->|Hne].
        -- rewrite list_lookup_insert_eq by (unfold len in Hc; lia).
           by rewrite Hr.
        -- by rewrite list_lookup_insert_ne.
      * intros i Hi. rewrite Hsame.
        -- apply list_lookup_insert_ne. intros Heq.
           assert (Hfwd : strand_list !! Z.to_nat idx = Some true).
           { apply Hi. replace (Z.of_nat i) with c by lia. by left. }
           congruence.
        -- intros idx' Hin. apply Hi. by right.
Qed.

(** X14. With one strand per entry of [cc] and valid read indices, the
    strand loop of [run_spoa_in_cc] returns a list of the same length
    in which every record keeps its identifier, and a read that [cc]
    only lists on the forward strand is unchanged. *)
Theorem reverse_reads_keeps_ids (record_list : list record) (cc : list Z)
    (strand_list : list bool) :
  length strand_list = length cc ->
  (forall c, c ∈ cc -> 0 <= c < len record_list) ->
  exists record_list',
    reverse_reads record_list cc strand_list = Ok record_list'
    /\ length record_list' = length record_list
    /\ (forall i : nat, rec_id <$> record_list' !! i = rec_id <$> record_list !! i)
    /\ (forall i : nat,
          (forall idx : nat, cc !! idx = Some (Z.of_nat i) ->
                             strand_list !! idx = Some true) ->
          record_list' !! i = record_list !! i).
Proof.
  intros Hsc Hrange. unfold reverse_reads.
  destruct (reverse_loop_ids strand_list (enumerate cc) record_list)
    as (rl' & Hrun & Hlen & Hids & Hsame).
  { intros idx c Hin. apply elem_of_enumerate in Hin as [Hidx Hc].
    split; [unfold len in *; lia|]. by apply Hrange. }
  exists rl'. split; [done|]. split; [done|]. split; [done|].
  intros i Hi. apply Hsame. intros idx Hin.
  apply elem_of_enumerate_lookup in Hin as [Hidx Hcc]. by apply Hi.
Qed.

End Strands.

(** ** Windows and reads *)

Lemma foldr_min_le x (l : list Z) :
  foldr Z.min x l <= x /\ forall y, y ∈ l -> foldr Z.min x l <= y.
Proof.
  induction l as [|z l [IHx IHl]]; simpl.
  - split; [lia|]. by intros y ?%elem_of_nil.
  - split; [lia|]. intros y [->|Hy]%elem_of_cons; [lia|].
    specialize (IHl y Hy). lia.
Qed.

Lemma foldr_max_ge x (l : list Z) :
  x <= foldr Z.max x l /\ forall y, y ∈ l -> y <= foldr Z.max x l.
Proof.
  induction l as [|z l [IHx IHl]]; simpl.
  - split; [lia|]. by intros y ?%elem_of_nil.
  - split; [lia|]. intros y [->|Hy]%elem_of_cons; [lia|].
    specialize (IHl y Hy). lia.
Qed.

Lemma np_min_le a m y : np_min a = Ok m -> y ∈ a -> m <= y.
Proof.
  destruct a as [|x a]; [done|]. intros [= <-] Hy.
  destruct (foldr_min_le x a) as [Hx Ha].
  apply elem_of_cons in Hy as [->|Hy]; [exact Hx|by apply Ha].
Qed.

Lemma np_max_ge a m y : np_max a = Ok m -> y ∈ a -> y <= m.
Proof.
  destruct a as [|x a]; [done|]. intros [= <-] Hy.
  destruct (foldr_max_ge x a) as [Hx Ha].
  apply elem_of_cons in Hy as [->|Hy]; [exact Hx|by apply Ha].
Qed.

Lemma elem_of_flatnonzero_from k mask idx :
  idx ∈ flatnonzero_from k mask <->
  exists i : nat, idx = k + Z.of_nat i /\ mask !! i = Some true.
Proof.
  revert k. induction mask as [|b mask IH]; intros k; simpl.
  - split; [by intros ?%elem_of_nil|by intros (i & _ & ?)].
  - destruct b.
    + rewrite elem_of_cons, IH. split.
      * intros [->|(i & -> & Hi)]; [exists 0%nat|exists (S i)];
          (split; [lia|done]).
      * intros ([|i] & -> & Hi); [left; lia|right].
        exists i. split; [lia|done].
    + rewrite IH. split.
      * intros (i & -> & Hi). exists (S i). split; [lia|done].
      * intros ([|i] & -> & Hi); [done|]. exists i. split; [lia|done].
Qed.

Lemma elem_of_reads_in_w bpos_list epos_list w_b w_e (i : nat) :
  Z.of_nat i ∈ reads_in_w bpos_list epos_list w_b w_e <->
  exists b e, bpos_list !! i = Some b /\ epos_list !! i = Some e
              /\ b < w_e /\ e > w_b.
Proof.
  unfold reads_in_w, flatnonzero. rewrite elem_of_flatnonzero_from. split.
  - intros (j & Hj & Hmask). assert (j = i) as -> by lia.
    apply lookup_zip_with_Some in Hmask as (x & y & Hxy & Hx & Hy).
    rewrite list_lookup_fmap in Hx, Hy.
    destruct (bpos_list !! i) as [b|]; [|done].
    destruct (epos_list !! i) as [e|]; [|done].
    simpl in Hx, Hy. injection Hx as <-. injection Hy as <-.
    symmetry in Hxy. apply andb_true_iff in Hxy as [Hb He].
    exists b, e. repeat split; [lia|].
    by apply Z.gtb_lt, Z.lt_gt in He.
  - intros (b & e & Hb & He & Hlt & Hgt). exists i. split; [lia|].
    apply lookup_zip_with_Some. exists true, true. split; [done|].
    rewrite !list_lookup_fmap, Hb, He. simpl. split; f_equal.
    + by apply Z.ltb_lt.
    + apply Z.gtb_lt. lia.
Qed.

Lemma np_max_elem a m : np_max a = Ok m -> m ∈ a.
Proof.
  destruct a as [|x a]; [done|]. intros [= <-].
  induction a as [|y a IH]; simpl; [by left|].
  destruct (Z.max_spec y (foldr Z.max x a)) as [[_ ->]|[_ ->]].
  - apply elem_of_cons in IH as [->|IH]; [by left|by do 2 right].
  - right. by left.
Qed.

Lemma np_min_elem a m : np_min a = Ok m -> m ∈ a.
Proof.
  destruct a as [|x a]; [done|]. intros [= <-].
  induction a as [|y a IH]; simpl; [by left|].
  destruct (Z.min_spec y (foldr Z.min x a)) as [[_ ->]|[_ ->]].
  - right. by left.
  - apply elem_of_cons in IH as [->|IH]; [by left|by do 2 right].
Qed.

(** The windows of [run_spoa_in_cc] cover the span of the component. *)
Lemma windows_cover (bpos_list epos_list : list Z) (o : opts)
    (e_max b_min : Z) :
  0 <= W_OVL_LEN o < W_LEN o ->
  np_max epos_list = Ok e_max -> np_min bpos_list = Ok b_min ->
  b_min <= e_max ->
  let step := W_LEN o - W_OVL_LEN o in
  let n := (e_max - b_min) `div` step + 1 in
  n_windows bpos_list epos_list o = Ok n
  /\ 1 <= n
  /\ step * (n - 1) <= e_max - b_min < step * n
  /\ forall x, 0 <= x <= e_max - b_min ->
       let w := x `div` step in
       0 <= w < n /\ step * w <= x < step * w + W_LEN o.
Proof.
  intros Hovl Hmax Hmin Hspan step n.
  assert (Hstep : 0 < step) by (unfold step; lia).
  split; [unfold n_windows; by rewrite Hmax, bind_Ok, Hmin, bind_Ok|].
  pose proof (Z.div_pos (e_max - b_min) step ltac:(lia) Hstep) as Hq.
  pose proof (Z.mul_div_le (e_max - b_min) step Hstep) as Hlo.
  pose proof (Z.mul_succ_div_gt (e_max - b_min) step Hstep) as Hhi.
  split; [unfold n; lia|]. split; [unfold n; lia|].
  intros x Hx w.
  pose proof (Z.div_pos x step ltac:(lia) Hstep) as Hw.
  pose proof (Z.mul_div_le x step Hstep) as Hxlo.
  pose proof (Z.mul_succ_div_gt x step Hstep) as Hxhi.
  pose proof (Z.div_le_mono x (e_max - b_min) step Hstep ltac:(lia)) as Hmono.
  fold w in Hw, Hxlo, Hxhi, Hmono. unfold n, step in *. lia.
Qed.

(** X15. On coordinates and a window length within [in_range], where
    the arithmetic of the arrays is exact, for [0 <= W_OVL_LEN < W_LEN]
    and a span that is not negative: the span and the count stay below
    [2 ^ 53], [run_spoa_in_cc] counts at least one window, the last
    window starts inside the span, and every coordinate of the span
    lies in the window of index [x // (W_LEN - W_OVL_LEN)], which is
    one of the [n] windows. *)
Theorem windows_cover_span (bpos_list epos_list : list Z) (o : opts)
    (e_max b_min : Z) :
  Forall in_range bpos_list -> Forall in_range epos_list ->
  in_range (W_LEN o) ->
  0 <= W_OVL_LEN o < W_LEN o ->
  np_max epos_list = Ok e_max -> np_min bpos_list = Ok b_min ->
  b_min <= e_max ->
  let step := W_LEN o - W_OVL_LEN o in
  let n := (e_max - b_min) `div` step + 1 in
  n_windows bpos_list epos_list o = Ok n
  /\ e_max - b_min < 2 ^ 53
  /\ 1 <= n <= 2 ^ 53
  /\ step * (n - 1) <= e_max - b_min < step * n
  /\ forall x, 0 <= x <= e_max - b_min ->
       let w := x `div` step in
       0 <= w < n /\ step * w <= x < step * w + W_LEN o.
Proof.
  intros Hb He _ Hovl Hmax Hmin Hspan step n.
  destruct (windows_cover bpos_list epos_list o e_max b_min Hovl Hmax Hmin
              Hspan) as (Hn & H1 & Hlast & Hcover).
  fold step in Hn, H1, Hlast, Hcover. fold n in Hn, H1, Hlast.
  assert (Hemax : in_range e_max).
  { eapply Forall_forall; [exact He|]. by apply np_max_elem. }
  assert (Hbmin : in_range b_min).
  { eapply Forall_forall; [exact Hb|]. by apply np_min_elem. }
  unfold in_range in Hemax, Hbmin.
  assert (Hlt : e_max - b_min < 2 ^ 53) by lia.
  assert (Hstep : 1 <= step) by (unfold step; lia).
  split; [exact Hn|]. split; [exact Hlt|]. split; [|split].
  - split; [exact H1|]. nia.
  - exact Hlast.
  - intros x Hx. fold n. apply Hcover, Hx.
Qed.

(** X16. On coordinates and a window length within [in_range], a read
    with [begin < end] is selected by [reads_in_w] for the window that
    holds its first base, and this window is one of the [n] windows of
    the component: no such read is left out of every window. *)
Theorem read_selected_in_its_window (bpos_list epos_list : list Z) (o : opts)
    (n b_min : Z) (i : nat) (b e : Z) :
  Forall in_range bpos_list -> Forall in_range epos_list ->
  in_range (W_LEN o) ->
  0 <= W_OVL_LEN o < W_LEN o ->
  n_windows bpos_list epos_list o = Ok n -> np_min bpos_list = Ok b_min ->
  bpos_list !! i = Some b -> epos_list !! i = Some e -> b < e ->
  let w := (b - b_min) `div` (W_LEN o - W_OVL_LEN o) in
  let w_b := (W_LEN o - W_OVL_LEN o) * w in
  let w_e := w_b + W_LEN o in
  0 <= w < n
  /\ Z.of_nat i ∈ reads_in_w ((fun b => b - b_min) <$> bpos_list)
                   ((fun e => e - b_min) <$> epos_list) w_b w_e.
Proof.
  intros _ _ _ Hovl Hn Hmin Hb He Hbe w w_b w_e.
  unfold n_windows in Hn.
  destruct (np_max epos_list) as [e_max|] eqn:Hmax; [|done].
  rewrite bind_Ok, Hmin, bind_Ok in Hn. injection Hn as <-.
  assert (Hb_min : b_min <= b).
  { eapply np_min_le; [done|]. by eapply list_elem_of_lookup_2. }
  assert (He_max : e <= e_max).
  { eapply np_max_ge; [done|]. by eapply list_elem_of_lookup_2. }
  assert (Hspan : b_min <= e_max) by lia.
  destruct (windows_cover bpos_list epos_list o e_max b_min Hovl Hmax Hmin
              Hspan) as (_ & _ & _ & Hcover).
  assert (Hx : 0 <= b - b_min <= e_max - b_min) by lia.
  destruct (Hcover (b - b_min) Hx) as [Hw Hin]. fold w in Hw, Hin.
  split; [exact Hw|].
  apply elem_of_reads_in_w. exists (b - b_min), (e - b_min).
  rewrite !list_lookup_fmap, Hb, He. unfold w_e, w_b.
  repeat split; lia.
Qed.

Lemma length_omap_le {A B} (f : A -> option B) (l : list A) :
  (length (omap f l) <= length l)%nat.
Proof.
  induction l as [|x l IH]; [done|].
  change (omap f (x :: l))
    with (match f x with Some y => y :: omap f l | None => omap f l end).
  destruct (f x); cbn [length]; lia.
Qed.

Lemma slice_in_range {A} (s : list A) a b :
  0 <= a <= b /\ b <= len s ->
  slice s a b = take (Z.to_nat (b - a)) (drop (Z.to_nat a) s).
Proof.
  intros Hab. unfold slice. rewrite !slice_bound_nonneg by lia.
  rewrite !Z.min_l by lia. reflexivity.
Qed.

Section Pieces.
Context {E : External}.

(** X17. Under the hypotheses of C6, the loop of [fill_window] writes at
    most one fragment per read; every fragment has between 20 and
    [W_LEN] bases, carries the identifier of a read of [record_list]
    and is a run of consecutive bases of that read.  With
    [W_LEN < 20] nothing is written. *)
Theorem fragment_within_window (w_idx : Z) (record_list : list record)
    (cc bpos_list epos_list : list Z) (o : opts) :
  length cc = length bpos_list -> length bpos_list = length epos_list ->
  (forall c, c ∈ cc -> 0 <= c < len record_list) ->
  exists frags,
    window_fragments w_idx record_list cc bpos_list epos_list o = Ok frags
    /\ (length frags <= length cc)%nat
    /\ (forall f, f ∈ frags ->
          20 <= len (rec_seq f) <= W_LEN o
          /\ exists r bb ee, r ∈ record_list
               /\ 0 <= bb <= ee /\ ee <= len (rec_seq r)
               /\ rec_id f = rec_id r
               /\ rec_seq f
                  = take (Z.to_nat (ee - bb)) (drop (Z.to_nat bb) (rec_seq r)))
    /\ (W_LEN o < 20 -> frags = []).
Proof.
  intros Hcb Hbe Hrange.
  set (w_b := (W_LEN o - W_OVL_LEN o) * w_idx).
  set (w_e := w_b + W_LEN o).
  exists (spec_fragments w_b w_e record_list cc bpos_list epos_list).
  split; [by apply window_fragments_spec|].
  assert (Hfrag : forall f,
    f ∈ spec_fragments w_b w_e record_list cc bpos_list epos_list ->
    20 <= len (rec_seq f) <= W_LEN o
    /\ exists r bb ee, r ∈ record_list
         /\ 0 <= bb <= ee /\ ee <= len (rec_seq r)
         /\ rec_id f = rec_id r
         /\ rec_seq f
            = take (Z.to_nat (ee - bb)) (drop (Z.to_nat bb) (rec_seq r))).
  { intros f Hf.
    apply elem_of_spec_fragments in Hf as (i & c & b & e & r & _ & _ & _ & Hr & Hf).
    apply spec_fragment_length in Hf as (Hlt & Hgt & -> & Hlen & H20).
    split; [unfold w_e in *; lia|].
    rewrite Hlen in H20.
    exists r, (Z.max 0 (w_b - b)), (Z.min (len (rec_seq r)) (w_e - b)).
    split; [by eapply list_elem_of_lookup_2|]. split; [lia|].
    split; [lia|]. split; [reflexivity|].
    apply slice_in_range. lia. }
  split; [|split; [exact Hfrag|]].
  - unfold spec_fragments.
    etrans; [apply length_omap_le|]. rewrite length_zip_with. lia.
  - intros Hshort.
    destruct (spec_fragments w_b w_e record_list cc bpos_list epos_list)
      as [|f fs] eqn:Hfs; [done|].
    destruct (Hfrag f) as [Hlen _]; [by left|]. lia.
Qed.

End Pieces.

(** ** The last line of an engine output *)

(** X1. When the file ends with a line [c] closed by a newline,
    [get_consensus] returns [c[t : len(c) - t]], whatever lines come
    before, and [c] itself for the margin 0. *)
Theorem get_consensus_last_line_only (fs : FS) (out_fn : path)
    (pre c : list ascii) (t : Z) :
  ends_lines pre -> newline ∉ c ->
  fs !! out_fn = Some (pre ++ c ++ [newline]) ->
  get_consensus fs out_fn t = Ok (slice c t (len c - t))
  /\ get_consensus fs out_fn 0 = Ok c.
Proof.
  intros Hpre Hc Hfile. unfold get_consensus. rewrite Hfile.
  rewrite !consensus_of_terminated by done.
  split; [reflexivity|]. rewrite Z.sub_0_r, slice_all. reflexivity.
Qed.

(** X2. When the last line of the file is not closed by a newline,
    [get_consensus] with the margin 0 returns it without its last
    character. *)
Theorem get_consensus_drops_last_character (fs : FS) (out_fn : path)
    (pre c : list ascii) :
  ends_lines pre -> c <> [] -> newline ∉ c ->
  fs !! out_fn = Some (pre ++ c) ->
  get_consensus fs out_fn 0 = Ok (removelast c).
Proof.
  intros Hpre Hne Hc Hfile. unfold get_consensus. rewrite Hfile.
  rewrite consensus_of_unterminated by done.
  rewrite Z.sub_0_r, slice_all. reflexivity.
Qed.

Lemma n_win_insert_existing (fs : FS) cc_idx p content content' :
  fs !! p = Some content -> n_win (<[p := content']> fs) cc_idx = n_win fs cc_idx.
Proof.
  intros Hp. unfold n_win, ls_wc. rewrite dom_insert_L.
  rewrite (subseteq_union_1_L {[p]} (dom fs)); [reflexivity|].
  apply singleton_subseteq_l, elem_of_dom. eauto.
Qed.

Section Beyond.
Context {E : External}.

(** X10. The output of a window whose index is at least
    [max(3, n_win)] is never read: changing its content does not
    change the consensus that [merge_windows_in_cc] returns. *)
Theorem merge_ignores_outputs_beyond_count (fs : FS) (cc_idx : Z) (o : opts)
    (w : Z) (content content' : list ascii) :
  Z.max 3 (n_win fs cc_idx) <= w ->
  fs !! cnsns_fn cc_idx w (READS_FMT o) = Some content ->
  returned (merge_windows_in_cc
              (<[cnsns_fn cc_idx w (READS_FMT o) := content']> fs) cc_idx o)
  = returned (merge_windows_in_cc fs cc_idx o).
Proof.
  intros Hw Hfile. symmetry. apply merge_same_outputs.
  - symmetry. by eapply n_win_insert_existing.
  - intros w' m Hin. apply elem_of_schedule in Hin.
    rewrite lookup_insert_ne; [reflexivity|]. intros [= ->]. lia.
Qed.

(** X5. A window whose output file is not empty but whose trimmed
    consensus is (a consensus of at most [2 * trim_margin] bases, a
    blank last line) is not skipped: [add_next_window] replaces the
    last [MERGE_MARGIN] characters of the running consensus by what the
    engine gives for them and an empty sequence. *)
Theorem add_next_window_empty_next (fs : FS) (temp_fn : path)
    (w_idx cc_idx : Z) (whole_cons : list ascii) (o : opts) (trim_margin : Z)
    (c : ascii) (content : list ascii) :
  temp_fn <> poa_out_cons_fn cc_idx w_idx ->
  fs !! cnsns_fn cc_idx w_idx (READS_FMT o) = Some (c :: content) ->
  consensus_of (c :: content) trim_margin = [] ->
  let k := Z.max 0 (len whole_cons - MERGE_MARGIN o) in
  returned (add_next_window fs temp_fn w_idx cc_idx whole_cons o trim_margin)
  = Ok (slice_to whole_cons k
        ++ consensus_of
             (spoa_pair (seam_input w_idx (slice_from whole_cons k) [])) 0).
Proof.
  intros Hne Hfile Hnext k.
  rewrite (add_next_window_runs fs temp_fn w_idx cc_idx whole_cons o
             trim_margin c content Hfile Hne).
  rewrite Hnext. unfold kept_len, len at 2. simpl.
  rewrite Z.sub_0_r. reflexivity.
Qed.

(** X13. With [N_PROC <= 1], on arrays that are not empty and with
    valid indices, [run_spoa_in_cc] returns and no file has been
    written, changed or removed: apart from the directory of the
    component, which is no file, it only normalises the strands. *)
Theorem run_spoa_in_cc_without_pool (fs : FS) record_list cc_idx cc
    strand_list bpos_list epos_list o :
  N_PROC o <= 1 ->
  bpos_list <> [] ->
  length bpos_list = length epos_list ->
  length strand_list = length cc ->
  (forall c, c ∈ cc -> 0 <= c < len record_list) ->
  exists record_list',
    reverse_reads record_list cc strand_list = Ok record_list'
    /\ run_spoa_in_cc fs record_list cc_idx cc strand_list bpos_list epos_list o
       = Ok (fs, record_list').
Proof.
  intros Hproc Hb Hbe Hsc Hrange.
  assert (He : epos_list <> []).
  { intros ->. destruct bpos_list; [done|]. simpl in Hbe. lia. }
  destruct (n_windows_total bpos_list epos_list o Hb He) as (n & b_min & Hn & Hmin).
  destruct (reverse_reads_total record_list cc strand_list Hsc Hrange)
    as (record_list' & Hrev & _).
  exists record_list'. split; [exact Hrev|].
  unfold run_spoa_in_cc. rewrite Hn, bind_Ok, Hmin, bind_Ok, Hrev, bind_Ok.
  destruct (Z.ltb_spec 1 (N_PROC o)); [lia|reflexivity].
Qed.

(** X11. With [N_PROC > 1], on arrays that are not empty, of the same
    length, and with valid indices, [run_spoa_in_cc] returns; for
    every window index in [0, n) the window input holds the formatted
    fragments of the window, the window output holds what the engine
    gave for this input when it is not empty and is as before when it
    is empty, and no other file changes. *)
Theorem production_with_pool (fs : FS) record_list cc_idx cc strand_list
    bpos_list epos_list o :
  1 < N_PROC o ->
  bpos_list <> [] ->
  length cc = length bpos_list -> length bpos_list = length epos_list ->
  length strand_list = length cc ->
  (forall c, c ∈ cc -> 0 <= c < len record_list) ->
  exists n b_min record_list' (fs' : FS),
    n_windows bpos_list epos_list o = Ok n
    /\ np_min bpos_list = Ok b_min
    /\ reverse_reads record_list cc strand_list = Ok record_list'
    /\ run_spoa_in_cc fs record_list cc_idx cc strand_list bpos_list epos_list o
       = Ok (fs', record_list')
    /\ (forall w, 0 <= w < n ->
         let w_b := (W_LEN o - W_OVL_LEN o) * w in
         let w_e := w_b + W_LEN o in
         let content :=
           poa_in_content (READS_FMT o)
             (spec_fragments w_b w_e record_list' cc
                ((fun b => b - b_min) <$> bpos_list)
                ((fun e => e - b_min) <$> epos_list)) in
         fs' !! poa_in_fn cc_idx w (READS_FMT o) = Some content
         /\ fs' !! cnsns_fn cc_idx w (READS_FMT o)
            = (if bool_decide (content = [])
               then fs !! cnsns_fn cc_idx w (READS_FMT o)
               else Some (spoa_msa (READS_FMT o) content)))
    /\ (forall p, (forall w, 0 <= w < n ->
                     p <> poa_in_fn cc_idx w (READS_FMT o)
                     /\ p <> cnsns_fn cc_idx w (READS_FMT o)) ->
                  fs' !! p = fs !! p).
Proof. apply run_spoa_in_cc_pool. Qed.

(** X12. After the production stage with [N_PROC > 1] on a directory
    that held no output of the component, the count that
    [merge_windows_in_cc] takes from the listing is the number of
    windows of [0, n) whose input is not empty. *)
Theorem listing_after_production (fs : FS) record_list cc_idx cc strand_list
    bpos_list epos_list o :
  1 < N_PROC o ->
  bpos_list <> [] ->
  length cc = length bpos_list -> length bpos_list = length epos_list ->
  length strand_list = length cc ->
  (forall c, c ∈ cc -> 0 <= c < len record_list) ->
  (forall w f, fs !! cnsns_fn cc_idx w f = None) ->
  exists n b_min record_list' (fs' : FS),
    n_windows bpos_list epos_list o = Ok n
    /\ np_min bpos_list = Ok b_min
    /\ run_spoa_in_cc fs record_list cc_idx cc strand_list bpos_list epos_list o
       = Ok (fs', record_list')
    /\ n_win fs' cc_idx
       = len (filter
                (fun w =>
                   poa_in_content (READS_FMT o)
                     (spec_fragments ((W_LEN o - W_OVL_LEN o) * w)
                        ((W_LEN o - W_OVL_LEN o) * w + W_LEN o)
                        record_list' cc
                        ((fun b => b - b_min) <$> bpos_list)
                        ((fun e => e - b_min) <$> epos_list)) <> [])
                (xrange 0 n)).
Proof. apply n_win_after_production. Qed.

End Beyond.

(** ** The further properties on sample data *)

Lemma no_newline_in_ACGT : newline ∉ lit "ACGT".
Proof.
  intros Hin.
  repeat (apply elem_of_cons in Hin as [Hin|Hin]; [discriminate Hin|]).
  by apply elem_of_nil in Hin.
Qed.

Lemma n_win_gap_windows : n_win gap_windows 0 = 4.
Proof. reflexivity. Qed.

Lemma short_end_range :
  forall c, c ∈ short_end_cc -> 0 <= c < len short_end_reads.
Proof.
  intros c Hc. apply list_elem_of_In in Hc. unfold len. simpl in *. lia.
Qed.

Lemma get_consensus_last_line_only_witness :
  let fn := cnsns_fn 0 0 fasta in
  let fs : FS := {[ fn := (cnsns_content (lit "ACGT")) ]} in
  ends_lines (lit "spoa" ++ [newline]) /\ (newline ∉ lit "ACGT")
  /\ get_consensus fs fn 1 = Ok (lit "CG")
  /\ get_consensus fs fn 0 = Ok (lit "ACGT").
Proof.
  intros fn fs.
  assert (Hpre : ends_lines (lit "spoa" ++ [newline])) by (right; eauto).
  assert (Hfile : fs !! fn = Some ((lit "spoa" ++ [newline]) ++ lit "ACGT" ++ [newline]))
    by apply lookup_singleton_eq.
  split; [exact Hpre|]. split; [exact no_newline_in_ACGT|].
  exact (get_consensus_last_line_only fs fn (lit "spoa" ++ [newline])
           (lit "ACGT") 1 Hpre no_newline_in_ACGT Hfile).
Defined.

Lemma get_consensus_drops_last_character_witness :
  let fn := cnsns_fn 0 0 fasta in
  let fs : FS := {[ fn := (lit "ACGT") ]} in
  ends_lines [] /\ lit "ACGT" <> [] /\ (newline ∉ lit "ACGT")
  /\ get_consensus fs fn 0 = Ok (lit "ACG").
Proof.
  intros fn fs.
  assert (Hpre : ends_lines []) by (by left).
  assert (Hne : lit "ACGT" <> []) by discriminate.
  assert (Hfile : fs !! fn = Some ([] ++ lit "ACGT")) by apply lookup_singleton_eq.
  split; [exact Hpre|]. split; [exact Hne|]. split; [exact no_newline_in_ACGT|].
  exact (get_consensus_drops_last_character fs fn [] (lit "ACGT")
           Hpre Hne no_newline_in_ACGT Hfile).
Defined.

Lemma run_spoa_and_consensus_cleans_up_witness :
  let in_fn := poa_in_cons_fn 0 1 in
  let out_fn := poa_out_cons_fn 0 1 in
  let fs : FS := {[ in_fn := (lit "ACGT" ++ [newline]) ]} in
  in_fn <> out_fn
  /\ exists fs' : FS,
       run_spoa_and_consensus (E := echo) fs in_fn out_fn
       = Ok (fs', lit "ACGT")
       /\ fs' !! in_fn = None /\ fs' !! out_fn = None.
Proof.
  intros in_fn out_fn fs.
  assert (Hne : in_fn <> out_fn) by discriminate.
  assert (Hin : fs !! in_fn = Some ("A"%char :: (lit "CGT" ++ [newline])))
    by apply lookup_singleton_eq.
  split; [exact Hne|].
  pose proof (run_spoa_and_consensus_runs (E := echo) fs in_fn out_fn
                "A"%char (lit "CGT" ++ [newline]) Hin Hne) as Hrun.
  destruct (run_spoa_and_consensus_cleans_up (E := echo) fs _ in_fn out_fn
              "A"%char (lit "CGT" ++ [newline]) _ Hin Hne Hrun)
    as (Hi & Ho & _).
  eexists. split; [exact Hrun|]. split; [exact Hi|exact Ho].
Defined.

Lemma add_next_window_touches_two_files_witness :
  let o := sample_opts 2 0 1 in
  poa_in_cons_fn 0 1 <> poa_out_cons_fn 0 1
  /\ exists (fs' : FS) r,
       add_next_window (E := echo) six_windows (poa_in_cons_fn 0 1) 1 0
         (lit "ACGTACGT") o 0 = Ok (fs', r)
       /\ fs' !! cnsns_fn 0 1 fasta = six_windows !! cnsns_fn 0 1 fasta.
Proof.
  intros o.
  assert (Hne : poa_in_cons_fn 0 1 <> poa_out_cons_fn 0 1) by discriminate.
  split; [exact Hne|].
  destruct (add_next_window_frame (E := echo) six_windows (poa_in_cons_fn 0 1)
              1 0 (lit "ACGTACGT") o 0 Hne) as (fs' & r & Hrun & _).
  destruct (add_next_window_touches_two_files (E := echo) six_windows fs'
              (poa_in_cons_fn 0 1) 1 0 (lit "ACGTACGT") r o 0 Hne Hrun)
    as (Hframe & _).
  exists fs', r. split; [exact Hrun|]. apply Hframe; discriminate.
Defined.

Lemma add_next_window_empty_next_witness :
  let o := sample_opts 2 1 2 in
  let fs : FS := {[ cnsns_fn 0 1 fasta := (lit "AC" ++ [newline]) ]} in
  poa_in_cons_fn 0 1 <> poa_out_cons_fn 0 1
  /\ consensus_of (lit "AC" ++ [newline]) 1 = []
  /\ returned (add_next_window (E := silent) fs (poa_in_cons_fn 0 1) 1 0
                (lit "ACGTACGT") o 1)
     = Ok (lit "ACGTAC").
Proof.
  intros o fs.
  assert (Hne : poa_in_cons_fn 0 1 <> poa_out_cons_fn 0 1) by discriminate.
  assert (Hfile : fs !! cnsns_fn 0 1 (READS_FMT o)
                  = Some ("A"%char :: (lit "C" ++ [newline])))
    by apply lookup_singleton_eq.
  assert (Hnext : consensus_of ("A"%char :: (lit "C" ++ [newline])) 1 = [])
    by reflexivity.
  split; [exact Hne|]. split; [exact Hnext|].
  exact (add_next_window_empty_next (E := silent) fs (poa_in_cons_fn 0 1) 1 0
           (lit "ACGTACGT") o 1 "A"%char (lit "C" ++ [newline])
           Hne Hfile Hnext).
Defined.

Lemma merge_windows_in_cc_keeps_windows_witness :
  let o := sample_opts 2 0 1 in
  exists (fs' : FS) whole_cons,
    merge_windows_in_cc (E := echo) six_windows 0 o = Ok (fs', whole_cons)
    /\ fs' !! consensus_fn 0 = Some (consensus_record 0 whole_cons)
    /\ fs' !! cnsns_fn 0 3 fasta = six_windows !! cnsns_fn 0 3 fasta.
Proof.
  intros o.
  pose proof (merge_windows_in_cc_outcome (E := echo) six_windows 0 o) as Hout.
  assert (Hfile : six_windows !! cnsns_fn 0 0 (READS_FMT o)
                  = Some (cnsns_content (lit "ACGTACGTACGTACGTACGT")))
    by reflexivity.
  rewrite Hfile in Hout. destruct Hout as (fs' & whole_cons & Hok & _).
  destruct (merge_windows_in_cc_keeps_windows (E := echo) six_windows fs' 0 o
              whole_cons Hok) as (_ & Hrec & Hframe).
  exists fs', whole_cons. split; [exact Hok|]. split; [exact Hrec|].
  apply Hframe. reflexivity.
Defined.

Lemma schedule_small_witness :
  let o := sample_opts 2 0 1 in
  3 <= n_win gap_windows 0 < 6
  /\ ~ NoDup (schedule (n_win gap_windows 0) o).*1.
Proof.
  intros o.
  assert (Hn : 3 <= n_win gap_windows 0 < 6) by (rewrite n_win_gap_windows; lia).
  split; [exact Hn|].
  exact (proj1 (proj2 (proj2 (schedule_small (E := echo) gap_windows 0 o))) Hn).
Defined.

Lemma merge_reads_scheduled_outputs_witness :
  let o := sample_opts 2 0 1 in
  let fs2 : FS := <[cnsns_fn 0 4 fasta := lit "TTTT"]> gap_windows in
  n_win gap_windows 0 = n_win fs2 0
  /\ returned (merge_windows_in_cc (E := echo) gap_windows 0 o)
     = returned (merge_windows_in_cc (E := echo) fs2 0 o).
Proof.
  intros o fs2.
  assert (Hn : n_win gap_windows 0 = n_win fs2 0) by reflexivity.
  assert (Hsame : forall w m, (w, m) ∈ schedule (n_win gap_windows 0) o ->
            gap_windows !! cnsns_fn 0 w (READS_FMT o)
            = fs2 !! cnsns_fn 0 w (READS_FMT o)).
  { intros w m Hin. rewrite n_win_gap_windows in Hin.
    apply elem_of_schedule in Hin. unfold fs2.
    rewrite lookup_insert_ne; [reflexivity|]. intros [= <-]. lia. }
  split; [exact Hn|].
  exact (merge_reads_scheduled_outputs (E := echo) gap_windows fs2 0 o Hn Hsame).
Defined.

Lemma merge_ignores_outputs_beyond_count_witness :
  let o := sample_opts 2 0 1 in
  Z.max 3 (n_win gap_windows 0) <= 4
  /\ returned (merge_windows_in_cc (E := echo)
                (<[cnsns_fn 0 4 fasta := lit "TTTT"]> gap_windows) 0 o)
     = returned (merge_windows_in_cc (E := echo) gap_windows 0 o).
Proof.
  intros o.
  assert (Hw : Z.max 3 (n_win gap_windows 0) <= 4)
    by (rewrite n_win_gap_windows; lia).
  assert (Hfile : gap_windows !! cnsns_fn 0 4 (READS_FMT o)
                  = Some (cnsns_content (lit "ACGT"))) by reflexivity.
  split; [exact Hw|].
  exact (merge_ignores_outputs_beyond_count (E := echo) gap_windows 0 o 4
           (cnsns_content (lit "ACGT")) (lit "TTTT") Hw Hfile).
Defined.

Lemma production_with_pool_witness :
  let o := sample_opts 2 0 0 in
  1 < N_PROC o /\ short_end_bpos <> []
  /\ exists n (fs' : FS) record_list',
       n_windows short_end_bpos short_end_epos o = Ok n
       /\ run_spoa_in_cc (E := echo) ∅ short_end_reads 0 short_end_cc
            short_end_strands short_end_bpos short_end_epos o
          = Ok (fs', record_list').
Proof.
  intros o.
  assert (Hproc : 1 < N_PROC o) by (simpl; lia).
  assert (Hb : short_end_bpos <> []) by discriminate.
  split; [exact Hproc|]. split; [exact Hb|].
  destruct (production_with_pool (E := echo) ∅ short_end_reads 0 short_end_cc
              short_end_strands short_end_bpos short_end_epos o Hproc Hb
              eq_refl eq_refl eq_refl short_end_range)
    as (n & b_min & rl' & fs' & Hn & _ & _ & Hrun & _).
  exists n, fs', rl'. split; [exact Hn|exact Hrun].
Defined.

Lemma listing_after_production_witness :
  let o := sample_opts 2 0 0 in
  1 < N_PROC o /\ short_end_bpos <> []
  /\ exists (fs' : FS) record_list',
       run_spoa_in_cc (E := echo) ∅ short_end_reads 0 short_end_cc
         short_end_strands short_end_bpos short_end_epos o
       = Ok (fs', record_list').
Proof.
  intros o.
  assert (Hproc : 1 < N_PROC o) by (simpl; lia).
  assert (Hb : short_end_bpos <> []) by discriminate.
  assert (Hfresh : forall w f, (∅ : FS) !! cnsns_fn 0 w f = None)
    by (intros; apply lookup_empty).
  split; [exact Hproc|]. split; [exact Hb|].
  destruct (listing_after_production (E := echo) ∅ short_end_reads 0
              short_end_cc short_end_strands short_end_bpos short_end_epos o
              Hproc Hb eq_refl eq_refl eq_refl short_end_range Hfresh)
    as (n & b_min & rl' & fs' & _ & _ & Hrun & _).
  exists fs', rl'. exact Hrun.
Defined.

Lemma run_spoa_in_cc_without_pool_witness :
  let o := sample_opts 1 0 0 in
  N_PROC o <= 1 /\ short_end_bpos <> []
  /\ exists record_list',
       run_spoa_in_cc (E := echo) ∅ short_end_reads 0 short_end_cc
         short_end_strands short_end_bpos short_end_epos o
       = Ok (∅, record_list').
Proof.
  intros o.
  assert (Hproc : N_PROC o <= 1) by (simpl; lia).
  assert (Hb : short_end_bpos <> []) by discriminate.
  split; [exact Hproc|]. split; [exact Hb|].
  destruct (run_spoa_in_cc_without_pool (E := echo) ∅ short_end_reads 0
              short_end_cc short_end_strands short_end_bpos short_end_epos o
              Hproc Hb eq_refl eq_refl short_end_range)
    as (rl' & _ & Hrun).
  exists rl'. exact Hrun.
Defined.

Lemma reverse_reads_keeps_ids_witness :
  length [true; false] = length short_end_cc
  /\ exists record_list',
       reverse_reads (E := echo) short_end_reads short_end_cc [true; false]
       = Ok record_list'
       /\ length record_list' = length short_end_reads
       /\ record_list' !! 0%nat = short_end_reads !! 0%nat.
Proof.
  assert (Hsc : length [true; false] = length short_end_cc) by reflexivity.
  split; [exact Hsc|].
  destruct (reverse_reads_keeps_ids (E := echo) short_end_reads short_end_cc
              [true; false] Hsc short_end_range)
    as (rl' & Hrun & Hlen & _ & Hsame).
  exists rl'. split; [exact Hrun|]. split; [exact Hlen|].
  apply Hsame. intros [|[|idx]] Hidx; [reflexivity|discriminate Hidx|].
  discriminate Hidx.
Defined.

Lemma windows_cover_span_witness :
  let o := sample_opts 2 0 0 in
  Forall in_range short_end_bpos /\ Forall in_range short_end_epos
  /\ in_range (W_LEN o) /\ 0 <= W_OVL_LEN o < W_LEN o
  /\ np_max short_end_epos = Ok 210 /\ np_min short_end_bpos = Ok 0
  /\ n_windows short_end_bpos short_end_epos o = Ok 3.
Proof.
  intros o.
  assert (Hb : Forall in_range short_end_bpos)
    by (repeat constructor; unfold in_range; lia).
  assert (He : Forall in_range short_end_epos)
    by (repeat constructor; unfold in_range; lia).
  assert (Hw : in_range (W_LEN o)) by (unfold in_range; simpl; lia).
  assert (Hovl : 0 <= W_OVL_LEN o < W_LEN o) by (simpl; lia).
  assert (Hmax : np_max short_end_epos = Ok 210) by reflexivity.
  assert (Hmin : np_min short_end_bpos = Ok 0) by reflexivity.
  assert (Hspan : 0 <= 210) by lia.
  split; [exact Hb|]. split; [exact He|]. split; [exact Hw|].
  split; [exact Hovl|]. split; [exact Hmax|]. split; [exact Hmin|].
  exact (proj1 (windows_cover_span short_end_bpos short_end_epos o 210 0
                  Hb He Hw Hovl Hmax Hmin Hspan)).
Defined.

Lemma read_selected_in_its_window_witness :
  let o := sample_opts 2 0 0 in
  Forall in_range short_end_bpos /\ Forall in_range short_end_epos
  /\ in_range (W_LEN o) /\ 0 <= W_OVL_LEN o < W_LEN o
  /\ 1 ∈ reads_in_w ((fun b => b - 0) <$> short_end_bpos)
           ((fun e => e - 0) <$> short_end_epos) 0 100.
Proof.
  intros o.
  assert (Hb : Forall in_range short_end_bpos)
    by (repeat constructor; unfold in_range; lia).
  assert (He : Forall in_range short_end_epos)
    by (repeat constructor; unfold in_range; lia).
  assert (Hw : in_range (W_LEN o)) by (unfold in_range; simpl; lia).
  assert (Hovl : 0 <= W_OVL_LEN o < W_LEN o) by (simpl; lia).
  assert (Hbe : 50 < 210) by lia.
  split; [exact Hb|]. split; [exact He|]. split; [exact Hw|].
  split; [exact Hovl|].
  exact (proj2 (read_selected_in_its_window short_end_bpos short_end_epos o
                  3 0 1 50 210 Hb He Hw Hovl eq_refl eq_refl eq_refl eq_refl
                  Hbe)).
Defined.

Lemma fragment_within_window_witness :
  length scenario_cc = length scenario_bpos
  /\ exists frags,
       window_fragments 1 scenario_reads scenario_cc scenario_bpos
         scenario_epos scenario_opts = Ok frags
       /\ (length frags <= length scenario_cc)%nat.
Proof.
  assert (H1 : length scenario_cc = length scenario_bpos) by reflexivity.
  assert (H2 : length scenario_bpos = length scenario_epos) by reflexivity.
  assert (H3 : forall c, c ∈ scenario_cc -> 0 <= c < len scenario_reads).
  { intros c Hc. apply list_elem_of_In in Hc. unfold len. simpl in *. lia. }
  split; [exact H1|].
  destruct (fragment_within_window 1 scenario_reads scenario_cc
              scenario_bpos scenario_epos scenario_opts H1 H2 H3)
    as (frags & Hrun & Hlen & _).
  exists frags. split; [exact Hrun|exact Hlen].
Defined.
